(** * front-exam: the question manager and the exam runner

  A shallow embedding of the event handlers of
  [src/pages/admin/Questions.jsx] and [src/pages/exam/ExamInterface.jsx].
  Component state is passed explicitly; every call that leaves the
  component (toast, [window.confirm], a mutation, [setTimeout],
  [navigate]) is recorded in the list of effects a handler returns. *)

From Stdlib Require Import Ascii.
From stdpp Require Import gmap strings list pretty.

Set Warnings "-register-all".
Open Scope Z_scope.

(** ** The fragment of JavaScript the handlers rely on *)

Module JS.

(** Values as [JSON.parse] and the component produce them.  Numbers are
    whole numbers here; [JNaN] is the result of arithmetic on
    [undefined].  An object is its list of fields, looked up by the
    first match. *)
Inductive jsval :=
| JUndefined
| JNull
| JBool (b : bool)
| JNum (n : Z)
| JNaN
| JStr (s : string)
| JArr (items : list jsval)
| JObj (fields : list (string * jsval)).

(** Errors a handler can run into, with their [message]. *)
Inductive js_error :=
| SyntaxError (msg : string)
| TypeError (msg : string)
| ReferenceError (msg : string)
| Error (msg : string).

Definition message (e : js_error) : string :=
  match e with
  | SyntaxError m | TypeError m | ReferenceError m | Error m => m
  end.

(** A computation either throws or returns. *)
Inductive result (A : Type) :=
| Throw (e : js_error)
| Ok (a : A).
Arguments Throw {A} e.
Arguments Ok {A} a.

Definition bind {A B} (r : result A) (k : A -> result B) : result B :=
  match r with
  | Throw e => Throw e
  | Ok a => k a
  end.

Notation "x <- r ;; k" := (bind r (fun x => k))
  (at level 100, r at next level, right associativity).

(** ToBoolean. *)
Definition truthy (v : jsval) : bool :=
  match v with
  | JUndefined | JNull | JNaN => false
  | JBool b => b
  | JNum n => negb (n =? 0)
  | JStr s => negb (String.eqb s "")
  | JArr _ | JObj _ => true
  end.

(** [a || b] *)
Definition js_or (a b : jsval) : jsval := if truthy a then a else b.

Fixpoint assoc (name : string) (fields : list (string * jsval)) : jsval :=
  match fields with
  | [] => JUndefined
  | (k, v) :: rest => if String.eqb k name then v else assoc name rest
  end.

(** [v.name] for a name that is no built-in property: the field of an
    object, [undefined] on any other non-nullish value, a TypeError on
    [null] and [undefined] (V8's wording). *)
Definition get (v : jsval) (name : string) : result jsval :=
  match v with
  | JUndefined =>
      Throw (TypeError ("Cannot read properties of undefined (reading '" +:+ name +:+ "')"))
  | JNull =>
      Throw (TypeError ("Cannot read properties of null (reading '" +:+ name +:+ "')"))
  | JObj fields => Ok (assoc name fields)
  | _ => Ok JUndefined
  end.

(** [arr.map((x, index) => f(x, index))], which stops at the first
    call that throws. *)
Fixpoint map_indexed {A B} (f : A -> nat -> result B) (index : nat)
    (l : list A) : result (list B) :=
  match l with
  | [] => Ok []
  | x :: rest =>
      y <- f x index ;;
      ys <- map_indexed f (S index) rest ;;
      Ok (y :: ys)
  end.

End JS.

(** ** Questions.jsx: bulk insert *)

Module Questions.
Import JS.

(** What [handleBulkInsert] does to the outside world. *)
Inductive effect :=
| ToastError (msg : string)
| BulkCreateQuestions (questionsData : list jsval).

(** [bulkInsertMutation.mutate] is the only route to the API. *)
Definition is_network_call (e : effect) : bool :=
  match e with
  | BulkCreateQuestions _ => true
  | ToastError _ => false
  end.

(** [['MULTIPLE_CHOICE', 'FILL_IN_THE_BLANK'].includes(t)]: no coercion,
    so only the two strings themselves are found. *)
Definition isChoiceType (t : jsval) : bool :=
  match t with
  | JStr s => String.eqb s "MULTIPLE_CHOICE" || String.eqb s "FILL_IN_THE_BLANK"
  | _ => false
  end.

(** [option => ({ text: option.text || option,
                  isCorrect: option.isCorrect || false })] *)
Definition normalizeOption (option : jsval) : result jsval :=
  text <- get option "text" ;;
  isCorrect <- get option "isCorrect" ;;
  Ok (JObj [("text", js_or text option);
            ("isCorrect", js_or isCorrect (JBool false))]).

(** [q.options.map(...)] on a truthy [q.options]: only an array has
    [map] (the TypeError in V8's wording). *)
Definition mapOptions (options : jsval) : result jsval :=
  match options with
  | JArr items =>
      normalized <- map_indexed (fun option _ => normalizeOption option) 0 items ;;
      Ok (JArr normalized)
  | _ => Throw (TypeError "q.options.map is not a function")
  end.

(** [!q.text || !q.examCategoryId || !q.type] *)
Definition missingRequired (q : jsval) : result bool :=
  text <- get q "text" ;;
  if negb (truthy text) then Ok true else
  examCategoryId <- get q "examCategoryId" ;;
  if negb (truthy examCategoryId) then Ok true else
  type <- get q "type" ;;
  Ok (negb (truthy type)).

Definition missingMessage (index : nat) : string :=
  "Question " +:+ pretty (index + 1)%nat
  +:+ " is missing required fields (text, examCategoryId, type)".

(** The callback of [questions.map((q, index) => ...)]. *)
Definition validateQuestion (q : jsval) (index : nat) : result jsval :=
  missing <- missingRequired q ;;
  if missing : bool then Throw (Error (missingMessage index)) else
  type <- get q "type" ;;
  options <- get q "options" ;;
  options <- (if isChoiceType type && truthy options
              then mapOptions options else Ok options) ;;
  text <- get q "text" ;;
  examCategoryId <- get q "examCategoryId" ;;
  difficulty <- get q "difficulty" ;;
  marks <- get q "marks" ;;
  timeLimit <- get q "timeLimit" ;;
  Ok (JObj [("text", text);
            ("examCategoryId", examCategoryId);
            ("difficulty", js_or difficulty (JStr "EASY"));
            ("type", type);
            ("marks", js_or marks (JNum 1));
            ("timeLimit", js_or timeLimit (JNum 60));
            ("options", if isChoiceType type
                        then js_or options (JArr []) else JArr [])]).

Section BulkInsert.

(** The runtime's [JSON.parse]: a value, or the SyntaxError it throws. *)
Variable JSON_parse : string -> result jsval.

(** The body of the [try] block. *)
Definition bulkInsertBody (bulkData : string) : result (list effect) :=
  questions <- JSON_parse bulkData ;;
  match questions with
  | JArr items =>
      validatedQuestions <- map_indexed validateQuestion 0 items ;;
      Ok [BulkCreateQuestions validatedQuestions]
  | _ => Ok [ToastError "JSON data must be an array of questions"]
  end.

Definition handleBulkInsert (bulkData : string) : list effect :=
  match bulkInsertBody bulkData with
  | Ok effects => effects
  | Throw error => [ToastError ("Invalid JSON format: " +:+ message error)]
  end.

End BulkInsert.

(** A run in which the text area holds the JSON text of [v]. *)
Definition parsesTo (v : jsval) : string -> result jsval := fun _ => Ok v.

(** *** Vocabulary of the statements about bulk insert *)

(** [v.name] where reading cannot throw. *)
Definition field (v : jsval) (name : string) : jsval :=
  match v with
  | JObj fields => assoc name fields
  | _ => JUndefined
  end.

Definition nullish (v : jsval) : bool :=
  match v with
  | JUndefined | JNull => true
  | _ => false
  end.

Definition isArray (v : jsval) : bool :=
  match v with
  | JArr _ => true
  | _ => false
  end.

(** An entry without [text], [examCategoryId] or [type]: an absent
    field reads as [undefined].  (The handler also counts a field that
    is [null], [""], [0] or [false].) *)
Definition missingField (q : jsval) : bool :=
  negb (truthy (field q "text"))
  || negb (truthy (field q "examCategoryId"))
  || negb (truthy (field q "type")).

(** The input is malformed JSON, is no array, or has an entry without
    a required field. *)
Definition invalidInput (parsed : result jsval) : Prop :=
  match parsed with
  | Throw _ => True
  | Ok (JArr items) =>
      exists (i : nat) (q : jsval), items !! i = Some q /\ missingField q = true
  | Ok _ => True
  end.

(** Entry [i] is the first the handler stops at, and it stops there on
    the required-fields check. *)
Definition firstFailureIsMissingField (items : list jsval) (i : nat) : Prop :=
  (exists q : jsval,
      items !! i = Some q /\ nullish q = false /\ missingField q = true)
  /\ forall (j : nat) (q' : jsval),
      (j < i)%nat -> items !! j = Some q' ->
      exists v : jsval, validateQuestion q' j = Ok v.

(** Sample entries. *)
Definition completeEntry (type : string) (options : jsval) : jsval :=
  JObj [("text", JStr "2 + 2 = ?"); ("examCategoryId", JStr "cat_001");
        ("type", JStr type); ("options", options)].

Definition entryWithoutOptions : jsval :=
  JObj [("text", JStr "2 + 2 = ?"); ("examCategoryId", JStr "cat_001");
        ("type", JStr "MULTIPLE_CHOICE")].

Definition entryWithOnlyType : jsval :=
  JObj [("type", JStr "MULTIPLE_CHOICE")].

End Questions.

(** ** ExamInterface.jsx: the exam runner *)

Module ExamInterface.
Import JS.

(** *** Data *)

(** What a chain [a?.b?.c] evaluates to when the field holds a value of
    type [A]: [undefined] (a link or the field is missing), [null], or
    the value. *)
Inductive optional (A : Type) :=
| Undefined
| Null
| Defined (a : A).
Arguments Undefined {A}.
Arguments Null {A}.
Arguments Defined {A} a.

(** The ids of the exam and of the attempt are strings (the category
    placeholder of the question manager is ["cat_001"]); a string is
    truthy unless empty. *)
Definition truthyId (id : optional string) : bool :=
  match id with
  | Defined s => negb (String.eqb s "")
  | _ => false
  end.

Definition truthyFlag (b : optional bool) : bool :=
  match b with
  | Defined b => b
  | _ => false
  end.

(** A JavaScript number: a whole number or NaN. *)
Inductive number :=
| Num (n : Z)
| NaN.

(** ToNumber of an optional numeric field. *)
Definition toNumber (v : optional Z) : number :=
  match v with
  | Undefined => NaN
  | Null => Num 0
  | Defined n => Num n
  end.

(** [a * b] *)
Definition times (a b : number) : number :=
  match a, b with
  | Num x, Num y => Num (x * y)
  | _, _ => NaN
  end.

(** [a || d] for a number [d]: 0 and NaN are falsy. *)
Definition numberOr (a : number) (d : Z) : Z :=
  match a with
  | Num n => if n =? 0 then d else n
  | NaN => d
  end.

(** A value inside a template literal. *)
Definition showNumber (v : optional Z) : string :=
  match v with
  | Undefined => "undefined"
  | Null => "null"
  | Defined n => pretty n
  end.

(** The [id] of a question as the response carries it: a string or a
    whole number. *)
Inductive ident :=
| IdStr (s : string)
| IdNum (n : Z).

(** The key of [answers[id]] and of [{ [id]: ... }]: a property key is
    a string, a number is written in decimal. *)
Definition keyOf (id : ident) : string :=
  match id with
  | IdStr s => s
  | IdNum n => pretty n
  end.

(** [id === key] for a key of [Object.entries], a string: without
    coercion, so a number equals none. *)
Definition strictEqualsKey (id : ident) (key : string) : bool :=
  match id with
  | IdStr s => String.eqb s key
  | IdNum _ => false
  end.

(** What the component reads of a question: its [id], its [type], and
    the [images] and [options] the question area goes through, each
    absent, [null] or a list. *)
Record question := {
  q_id : ident;
  q_type : string;
  q_images : optional (list jsval);
  q_options : optional (list jsval)
}.

Record attempts_info := {
  canTakeExam : optional bool;
  attemptsUsed : optional Z;
  attemptsAllowed : optional Z
}.

Record exam := {
  exam_id : optional string;
  exam_attemptsInfo : optional attempts_info;
  exam_questions : optional (list question)
}.

(** [examData], read through the two chains the component uses:
    [ed_exam] is [examData?.data?.data?.exam || examData?.data?.exam],
    [ed_questions] is [examData?.data?.data?.questions]. *)
Record exam_data := {
  ed_exam : optional exam;
  ed_questions : optional (list question)
}.

(** The component's [useState] cells. *)
Record state := {
  currentQuestion : Z;
  answers : gmap string jsval;
  timeLeft : Z;
  isSubmitted : bool;
  attemptId : optional string;
  examData : exam_data;
  examLoading : bool;
  examError : option string
}.

Definition initialState : state := {|
  currentQuestion := 0;
  answers := ∅;
  timeLeft := 3600;
  isSubmitted := false;
  attemptId := Null;
  examData := {| ed_exam := Undefined; ed_questions := Undefined |};
  examLoading := true;
  examError := None
|}.

(** [const exam = ... || {}] *)
Definition examOf (st : state) : exam :=
  match ed_exam (examData st) with
  | Defined e => e
  | _ => {| exam_id := Undefined; exam_attemptsInfo := Undefined;
            exam_questions := Undefined |}
  end.

(** [const questions = examData?.data?.data?.questions || exam.questions || []] *)
Definition questionsOf (st : state) : list question :=
  match ed_questions (examData st) with
  | Defined l => l
  | _ => match exam_questions (examOf st) with
         | Defined l => l
         | _ => []
         end
  end.

(** One entry of the submitted [responses]; [essayAnswer] is [None]
    when the object has no such field. *)
Record response := {
  questionId : string;
  selectedOptions : list jsval;
  essayAnswer : option jsval;
  timeSpent : Z
}.

(** The results block of a submit response. *)
Record results := {
  percentage : optional Z;
  grade : optional string;
  correctAnswers : optional Z;
  totalQuestions : optional Z
}.

(** [data.data?.data?.attempt?.id], [...attempt?.duration] and
    [data.data?.data?.questions] of a start-attempt response. *)
Record start_response := {
  sr_attemptId : optional string;
  sr_duration : optional Z;
  sr_questions : optional (list question)
}.

(** [data.data?.data?.attempt?.id] and [data.data?.data?.results] of a
    submit response. *)
Record submit_response := {
  sub_attemptId : optional string;
  sub_results : optional results
}.

(** *** Effects *)

(** The two functions the component hands to [setTimeout]. *)
Inductive callback :=
| NavigateToTests
| PostSubmit (data : submit_response).

Inductive effect :=
| ToastError (msg : string) (duration : option Z)
| ToastSuccess (msg : string) (duration : option Z)
| WindowConfirm (msg : string)
| StartAttempt (examId : string)
| SubmitAttempt (attemptId : string) (responses : list response)
| SetTimeout (cb : callback) (delay : Z)
| ClearInterval
| Navigate (path : string)
| Uncaught (e : js_error).

(** The calls that reach the backend. *)
Definition is_network_call (e : effect) : bool :=
  match e with
  | StartAttempt _ | SubmitAttempt _ _ => true
  | _ => false
  end.

Definition is_confirm (e : effect) : bool :=
  match e with
  | WindowConfirm _ => true
  | _ => false
  end.

Definition is_submit (e : effect) : bool :=
  match e with
  | SubmitAttempt _ _ => true
  | _ => false
  end.

Definition is_start (e : effect) : bool :=
  match e with
  | StartAttempt _ => true
  | _ => false
  end.


(** *** State updates *)

Definition setCurrentQuestion (f : Z -> Z) (st : state) : state := {|
  currentQuestion := f (currentQuestion st);
  answers := answers st;
  timeLeft := timeLeft st;
  isSubmitted := isSubmitted st;
  attemptId := attemptId st;
  examData := examData st;
  examLoading := examLoading st;
  examError := examError st
|}.

Definition setAnswers (f : gmap string jsval -> gmap string jsval)
    (st : state) : state := {|
  currentQuestion := currentQuestion st;
  answers := f (answers st);
  timeLeft := timeLeft st;
  isSubmitted := isSubmitted st;
  attemptId := attemptId st;
  examData := examData st;
  examLoading := examLoading st;
  examError := examError st
|}.

Definition setIsSubmitted (b : bool) (st : state) : state := {|
  currentQuestion := currentQuestion st;
  answers := answers st;
  timeLeft := timeLeft st;
  isSubmitted := b;
  attemptId := attemptId st;
  examData := examData st;
  examLoading := examLoading st;
  examError := examError st
|}.

Definition setExamData (d : exam_data) (st : state) : state := {|
  currentQuestion := currentQuestion st;
  answers := answers st;
  timeLeft := timeLeft st;
  isSubmitted := isSubmitted st;
  attemptId := attemptId st;
  examData := d;
  examLoading := examLoading st;
  examError := examError st
|}.

(** *** Fetching the exam (the first [useEffect]) *)

(** The [.then] branch of [examAPI.getExamById(testId)]. *)
Definition onExamLoaded (response : exam_data) (st : state) : state := {|
  currentQuestion := currentQuestion st;
  answers := answers st;
  timeLeft := timeLeft st;
  isSubmitted := isSubmitted st;
  attemptId := attemptId st;
  examData := response;
  examLoading := false;
  examError := examError st
|}.

(** *** Starting the attempt *)

(** The id a guard [if (id)] lets through. *)
Definition activeId (id : optional string) : option string :=
  match id with
  | Defined s => if String.eqb s "" then None else Some s
  | _ => None
  end.

Definition exceededMessage (info : attempts_info) : string :=
  "You have used all " +:+ showNumber (attemptsUsed info) +:+ "/"
  +:+ showNumber (attemptsAllowed info)
  +:+ " attempts for this exam. No more attempts allowed.".

(** The [useEffect] on [[exam.id, attemptId, exam.attemptsInfo, navigate]]. *)
Definition attemptEffect (st : state) : list effect :=
  let exam := examOf st in
  match activeId (exam_id exam) with
  | Some examId =>
      if negb (truthyId (attemptId st)) then
        match exam_attemptsInfo exam with
        | Defined attemptsInfo =>
            if negb (truthyFlag (canTakeExam attemptsInfo)) then
              [ToastError (exceededMessage attemptsInfo) (Some 5000);
               SetTimeout NavigateToTests 3000]
            else [StartAttempt examId]
        | _ => [StartAttempt examId]
        end
      else []
  | None => []
  end.

(** [data.data?.data?.attempt?.duration * 60 || 3600] *)
Definition initialTimeLeft (duration : optional Z) : Z :=
  numberOr (times (toNumber duration) (Num 60)) 3600.

(** [startAttemptMutation]'s [onSuccess]. *)
Definition onStartSuccess (data : start_response) (st : state)
    : state * list effect :=
  let startQuestions :=
    match sr_questions data with
    | Defined l => l
    | _ => []
    end in
  ({| currentQuestion := currentQuestion st;
      answers := answers st;
      timeLeft := initialTimeLeft (sr_duration data);
      isSubmitted := isSubmitted st;
      attemptId := sr_attemptId data;
      examData :=
        if (0 <? Z.of_nat (length startQuestions))
        then {| ed_exam := ed_exam (examData st);
                ed_questions := Defined startQuestions |}
        else examData st;
      examLoading := examLoading st;
      examError := examError st |},
   [ToastSuccess "Exam started successfully!" None]).

(** *** Recording answers *)

(** [setAnswers(prev => ({ ...prev, [questionId]: answerIndex }))] *)
Definition handleAnswerSelect (questionId : ident) (answerIndex : jsval)
    (st : state) : state * list effect :=
  (setAnswers (fun prev => <[keyOf questionId := answerIndex]> prev) st, []).

(** The [onChange] of the essay and short-answer text areas:
    [setAnswers(prev => ({ ...prev, [currentQuestionData.id]: e.target.value }))]. *)
Definition handleTextChange (questionId : ident) (value : string)
    (st : state) : state * list effect :=
  (setAnswers (fun prev => <[keyOf questionId := JStr value]> prev) st, []).

(** [arr[index] = v]: an index past the end grows the array, the gap
    reading as [undefined]. *)
Definition assignIndex (items : list jsval) (index : nat) (v : jsval)
    : list jsval :=
  if (index <? length items)%nat then <[index := v]> items
  else items ++ replicate (index - length items)%nat JUndefined ++ [v].

(** [obj[name] = v] *)
Fixpoint assignField (name : string) (v : jsval)
    (fields : list (string * jsval)) : list (string * jsval) :=
  match fields with
  | [] => [(name, v)]
  | (k, old) :: rest =>
      if String.eqb k name then (k, v) :: rest
      else (k, old) :: assignField name v rest
  end.

(** Assigning to an index of a primitive throws in module code (V8's
    wording). *)
Definition primitiveAssignError (target : jsval) (index : nat) : js_error :=
  let key := pretty index in
  match target with
  | JStr s =>
      if (index <? String.length s)%nat
      then TypeError ("Cannot assign to read only property '" +:+ key
                      +:+ "' of string '" +:+ s +:+ "'")
      else TypeError ("Cannot create property '" +:+ key
                      +:+ "' on string '" +:+ s +:+ "'")
  | JNum n =>
      TypeError ("Cannot create property '" +:+ key +:+ "' on number '"
                 +:+ pretty n +:+ "'")
  | _ =>
      TypeError ("Cannot create property '" +:+ key +:+ "' on boolean 'true'")
  end.

(** The [onChange] of the input of blank [index]:
    [newAnswers = { ...answers }], an empty array where the entry is
    falsy, then [newAnswers[id][index] = value] and
    [setAnswers(newAnswers)].  This is the state the component moves
    to.  The assignment writes into the array itself, which the
    [answers] of earlier renders hold as well when it was there before:
    [AnswerObjects.typeBlank] below is the same handler on objects with
    an identity, and says what those earlier objects show afterwards. *)
Definition handleBlankChange (questionId : ident) (index : nat)
    (value : string) (st : state) : state * list effect :=
  let key := keyOf questionId in
  let current :=
    match answers st !! key with
    | Some v => if truthy v then v else JArr []
    | None => JArr []
    end in
  match current with
  | JArr items =>
      (setAnswers (fun _ =>
         <[key := JArr (assignIndex items index (JStr value))]>
           (answers st)) st, [])
  | JObj fields =>
      (setAnswers (fun _ =>
         <[key := JObj (assignField (pretty index) (JStr value) fields)]>
           (answers st)) st, [])
  | primitive => (st, [Uncaught (primitiveAssignError primitive index)])
  end.

(** What the exam taker can do to the current question's answer. *)
Inductive answer_input :=
| ChooseOption (index : nat)
| TypeText (value : string)
| TypeBlank (index : nat) (value : string).

Definition recordAnswer (q : question) (input : answer_input) (st : state)
    : state * list effect :=
  match input with
  | ChooseOption index =>
      handleAnswerSelect (q_id q) (JNum (Z.of_nat index)) st
  | TypeText value => handleTextChange (q_id q) value st
  | TypeBlank index value => handleBlankChange (q_id q) index value st
  end.

(** *** Submitting *)

(** [questions.find(q => q.id === questionId)], [questionId] being a key
    of [Object.entries(answers)]. *)
Definition findQuestion (questions : list question) (questionId : string)
    : option question :=
  List.find (fun q => strictEqualsKey (q_id q) questionId) questions.

(** [currentQuestion?.type === 'ESSAY' || currentQuestion?.type === 'SHORT_ANSWER'] *)
Definition isEssayLike (currentQuestion : option question) : bool :=
  match currentQuestion with
  | Some q => String.eqb (q_type q) "ESSAY" || String.eqb (q_type q) "SHORT_ANSWER"
  | None => false
  end.

(** [Array.isArray(answer) ? answer : [answer]] *)
Definition asArray (answer : jsval) : list jsval :=
  match answer with
  | JArr items => items
  | _ => [answer]
  end.

(** The callback of [Object.entries(answers).map(...)]. *)
Definition toResponse (questions : list question) (entry : string * jsval)
    : response :=
  let '(questionId, answer) := entry in
  if isEssayLike (findQuestion questions questionId) then
    {| questionId := questionId; selectedOptions := [];
       essayAnswer := Some answer; timeSpent := 0 |}
  else
    {| questionId := questionId; selectedOptions := asArray answer;
       essayAnswer := None; timeSpent := 0 |}.

(** [Object.entries(answers)] lists each key once; the order of the
    listing is left to the map. *)
Definition buildResponses (answers : gmap string jsval)
    (questions : list question) : list response :=
  toResponse questions <$> map_to_list answers.

Definition nl : string := String "010"%char "".

Definition confirmMessage (answeredCount totalQuestions : Z) : string :=
  let unansweredCount := totalQuestions - answeredCount in
  "Are you sure you want to submit your exam?" +:+ nl +:+ nl
  +:+ "📊 Progress: " +:+ pretty answeredCount +:+ "/"
  +:+ pretty totalQuestions +:+ " questions answered"
  +:+ (if 0 <? unansweredCount
       then nl +:+ "⚠️ " +:+ pretty unansweredCount
            +:+ " question(s) unanswered"
       else "")
  +:+ nl +:+ nl +:+ "This action cannot be undone.".

(** What [handleSubmit] sees of the render it was created in. *)
Record closure := {
  cl_attemptId : optional string;
  cl_answers : gmap string jsval;
  cl_questions : list question
}.

Definition closureOf (st : state) : closure := {|
  cl_attemptId := attemptId st;
  cl_answers := answers st;
  cl_questions := questionsOf st
|}.

(** The summary [handleSubmit] puts together:
    [answeredCount = Object.keys(answers).length],
    [totalQuestions = questions.length]. *)
Definition confirmationSummary (cl : closure) : string :=
  let answeredCount := Z.of_nat (size (cl_answers cl)) in
  let totalQuestions := Z.of_nat (length (cl_questions cl)) in
  confirmMessage answeredCount totalQuestions.

Section Submission.

(** The exam taker's reply to [window.confirm(message)]. *)
Variable confirm : string -> bool.

Definition handleSubmit (cl : closure) : list effect :=
  match activeId (cl_attemptId cl) with
  | None => [ToastError "No active exam attempt" None]
  | Some attemptId =>
      let confirmMessage := confirmationSummary cl in
      WindowConfirm confirmMessage ::
      (if confirm confirmMessage
       then [SubmitAttempt attemptId
               (buildResponses (cl_answers cl) (cl_questions cl))]
       else [])
  end.

(** The Submit Test button: [onClick={handleSubmit}] of the current
    render. *)
Definition clickSubmit (st : state) : list effect :=
  handleSubmit (closureOf st).

(** *** The countdown (the third [useEffect]) *)

(** [remaining] is [timeLeft]; [running] says whether the interval is
    still set. *)
Record timer := {
  remaining : Z;
  running : bool
}.

(** [if (!attemptId || isSubmitted) return;] and then [setInterval]:
    the interval keeps the [handleSubmit] of the render that set it. *)
Definition startTimer (st : state) : option (timer * closure) :=
  if negb (truthyId (attemptId st)) || isSubmitted st then None
  else Some ({| remaining := timeLeft st; running := true |}, closureOf st).

(** The interval's callback: the updater given to [setTimeLeft],
    together with what it does on the way. *)
Definition timerCallback (cl : closure) (t : timer) : timer * list effect :=
  if remaining t <=? 1 then
    ({| remaining := 0; running := false |},
     ClearInterval :: handleSubmit cl)
  else
    ({| remaining := remaining t - 1; running := running t |}, []).

(** The countdown after [clearInterval]. *)
Definition stopped : timer := {| remaining := 0; running := false |}.

(** One second passes. *)
Definition tick (cl : closure) (t : timer) : timer * list effect :=
  if running t then timerCallback cl t else (t, []).

Fixpoint ticks (cl : closure) (n : nat) (t : timer) : timer * list effect :=
  match n with
  | O => (t, [])
  | S n' =>
      let '(t1, effects1) := tick cl t in
      let '(t2, effects2) := ticks cl n' t1 in
      (t2, effects1 ++ effects2)
  end.

End Submission.

(** *** After the submission *)

Definition scoreMessage (r : results) : string :=
  let score := match percentage r with Defined n => n | _ => 0 end in
  let grade :=
    match grade r with
    | Defined g => if String.eqb g "" then "N/A" else g
    | _ => "N/A"
    end in
  let correctAnswers := match correctAnswers r with Defined n => n | _ => 0 end in
  let totalQuestions := match totalQuestions r with Defined n => n | _ => 0 end in
  "Exam completed! Score: " +:+ pretty score +:+ ".0% (" +:+ grade +:+ ") - "
  +:+ pretty correctAnswers +:+ "/" +:+ pretty totalQuestions +:+ " correct".

(** [submitAttemptMutation]'s [onSuccess]. *)
Definition onSubmitSuccess (data : submit_response) (st : state)
    : state * list effect :=
  (setIsSubmitted true st,
   [ToastSuccess "Exam submitted successfully!" None]
   ++ match sub_results data with
      | Defined results => [ToastSuccess (scoreMessage results) (Some 4000)]
      | _ => []
      end
   ++ [SetTimeout (PostSubmit data) 3000]).

Definition onSubmitError (st : state) : state * list effect :=
  (st, [ToastError "Failed to submit exam" None]).

(** The function given to [setTimeout] after a submission:
    [const attemptId = data.data?.data?.attempt?.id || attemptId;
     navigate(`/exam/results/${attemptId}`)].
    The [attemptId] on the right of [||] is the constant being declared,
    not the state cell of that name, which the declaration hides; it is
    read only when the left operand is falsy, and it has no value yet
    then. *)
Definition postSubmitTimeout (data : submit_response)
    (stateAttemptId : optional string) : list effect :=
  match activeId (sub_attemptId data) with
  | Some attemptId => [Navigate ("/exam/results/" +:+ attemptId)]
  | None =>
      [Uncaught (ReferenceError
                   "Cannot access 'attemptId' before initialization")]
  end.

(** A timeout fires. *)
Definition runCallback (cb : callback) (st : state) : list effect :=
  match cb with
  | NavigateToTests => [Navigate "/student/tests"]
  | PostSubmit data => postSubmitTimeout data (attemptId st)
  end.

(** *** Navigation between questions *)

(** [prev => Math.max(0, prev - 1)] *)
Definition previousQuestion (prev : Z) : Z := Z.max 0 (prev - 1).

(** [prev => Math.min(questions.length - 1, prev + 1)] *)
Definition nextQuestion (questions : list question) (prev : Z) : Z :=
  Z.min (Z.of_nat (length questions) - 1) (prev + 1).

(** The grid: [questions.map((question, index) => <button
    onClick={() => setCurrentQuestion(index)} />)], as the list of the
    buttons' targets. *)
Definition gridButtons (questions : list question) : list nat :=
  imap (fun index _ => index) questions.

Inductive navigation :=
| ClickPrevious
| ClickNext
| ClickGrid (button : nat).

(** A click on a button the grid does not have changes nothing. *)
Definition navigateQuestions (questions : list question) (click : navigation)
    (current : Z) : Z :=
  match click with
  | ClickPrevious => previousQuestion current
  | ClickNext => nextQuestion questions current
  | ClickGrid button =>
      match gridButtons questions !! button with
      | Some index => Z.of_nat index
      | None => current
      end
  end.

(** *** What is rendered *)

(** [x.map(...)] for an [x] that may be missing (the TypeErrors in V8's
    wording). *)
Definition arrayToMap {A} (x : optional (list A)) : result (list A) :=
  match x with
  | Undefined =>
      Throw (TypeError "Cannot read properties of undefined (reading 'map')")
  | Null =>
      Throw (TypeError "Cannot read properties of null (reading 'map')")
  | Defined items => Ok items
  end.

(** [images && images.length > 0 && images.map(image => ...)]: each
    image is read for its [imageUrl] and its [altText]. *)
Definition questionImages (images : optional (list jsval))
    : result (list jsval) :=
  match images with
  | Defined (first :: others) =>
      map_indexed
        (fun image _ => _ <- get image "imageUrl" ;; get image "altText")
        0 (first :: others)
  | _ => Ok []
  end.

(** The question area of the last [return], evaluated for the errors it
    raises: the images, then the branch of the question's type.  The
    essay and the short-answer branch use [<FiInfo />], a name the
    module neither imports nor declares; the two other branches go
    through [currentQuestionData.options], and the multiple-choice one
    reads the [text] of every option. *)
Definition questionArea (q : question) : result unit :=
  _ <- questionImages (q_images q) ;;
  if String.eqb (q_type q) "ESSAY" then
    Throw (ReferenceError "FiInfo is not defined")
  else if String.eqb (q_type q) "SHORT_ANSWER" then
    Throw (ReferenceError "FiInfo is not defined")
  else if String.eqb (q_type q) "FILL_IN_THE_BLANK" then
    _ <- arrayToMap (q_options q) ;;
    Ok tt
  else
    options <- arrayToMap (q_options q) ;;
    _ <- map_indexed (fun option _ => get option "text") 0 options ;;
    Ok tt.

(** What the component function returns, or the error it throws. *)
Inductive view :=
| ErrorView
| LoadingView
| ExceededView
| SubmittedView
| PreparingView
| QuestionView (q : question)
| Thrown (e : js_error).

Definition render (st : state) : view :=
  match examError st with
  | Some _ => ErrorView
  | None =>
      if examLoading st then LoadingView else
      let exceeded :=
        match exam_attemptsInfo (examOf st) with
        | Defined attemptsInfo => negb (truthyFlag (canTakeExam attemptsInfo))
        | _ => false
        end in
      if exceeded then ExceededView else
      if isSubmitted st then SubmittedView else
      if (0 <=? currentQuestion st) then
        match questionsOf st !! Z.to_nat (currentQuestion st) with
        | Some q =>
            match questionArea q with
            | Ok _ => QuestionView q
            | Throw e => Thrown e
            end
        | None => PreparingView
        end
      else PreparingView
  end.

(** *** Sample data for the statements *)

(** A question with a string id, no image, and the options given. *)
Definition sampleQuestion (id type : string) (options : optional (list jsval))
    : question := {|
  q_id := IdStr id;
  q_type := type;
  q_images := Undefined;
  q_options := options
|}.

Definition sampleOptions : list jsval :=
  [JObj [("text", JStr "3")]; JObj [("text", JStr "4")];
   JObj [("text", JStr "5")]].

Definition sampleQuestions : list question :=
  [ sampleQuestion "q1" "MULTIPLE_CHOICE" (Defined sampleOptions);
    sampleQuestion "q2" "ESSAY" Undefined ].

(** An essay question whose id is the number 2. *)
Definition numberedEssay : question := {|
  q_id := IdNum 2;
  q_type := "ESSAY";
  q_images := Undefined;
  q_options := Undefined
|}.

Definition sampleAnswers : gmap string jsval := <["q1" := JNum 2]> ∅.

Definition sampleClosure : closure := {|
  cl_attemptId := Defined "attempt-1";
  cl_answers := sampleAnswers;
  cl_questions := sampleQuestions
|}.

(** An attempt in progress on the sample exam. *)
Definition sampleState (seconds : Z) : state := {|
  currentQuestion := 0;
  answers := sampleAnswers;
  timeLeft := seconds;
  isSubmitted := false;
  attemptId := Defined "attempt-1";
  examData := {| ed_exam := Undefined; ed_questions := Defined sampleQuestions |};
  examLoading := false;
  examError := None
|}.

(** A start-attempt response for an attempt of one minute. *)
Definition sampleStart : start_response := {|
  sr_attemptId := Defined "attempt-1";
  sr_duration := Defined 1;
  sr_questions := Defined sampleQuestions
|}.

(** The exam taker who presses Cancel, and the one who presses OK. *)
Definition declines : string -> bool := fun _ => false.
Definition accepts : string -> bool := fun _ => true.

End ExamInterface.

(** ** ExamInterface.jsx: the clock, the clicks and the events *)

Module ExamScreen.
Import JS ExamInterface.

(** [s.padStart(2, '0')] *)
Definition padStart2 (s : string) : string :=
  match String.length s with
  | 0%nat => "00"
  | 1%nat => "0" +:+ s
  | _ => s
  end.

(** [formatTime]: [Math.floor] of a quotient of whole numbers rounds
    down, [%] keeps the sign of the dividend. *)
Definition formatTime (seconds : Z) : string :=
  let hours := seconds `div` 3600 in
  let minutes := (Z.rem seconds 3600) `div` 60 in
  let secs := Z.rem seconds 60 in
  padStart2 (pretty hours) +:+ ":" +:+ padStart2 (pretty minutes)
  +:+ ":" +:+ padStart2 (pretty secs).

(** The three navigation controls, as updates of the state. *)
Definition clickNavigation (click : navigation) (st : state) : state :=
  setCurrentQuestion (navigateQuestions (questionsOf st) click) st.

(** A run of answer inputs, each on the question it is made on. *)
Definition recordAnswers (inputs : list (question * answer_input))
    (st : state) : state :=
  foldl (fun s input => fst (recordAnswer input.1 input.2 s)) st inputs.

(** The exam is on screen: loaded without error, attempts left, not
    submitted. *)
Definition inProgress (st : state) : Prop :=
  examError st = None /\ examLoading st = false
  /\ isSubmitted st = false
  /\ match exam_attemptsInfo (examOf st) with
     | Defined attemptsInfo => truthyFlag (canTakeExam attemptsInfo) = true
     | _ => True
     end.

End ExamScreen.

(** ** ExamInterface.jsx: the answers object and the arrays it shares *)

Module AnswerObjects.
Import JS ExamInterface.

(** [answers] starts as [{}] and is only changed by the option buttons,
    the text areas and the inputs of the blanks.  So a property of it
    holds the number of an option, the text of a text area, or an array
    of blanks.  The array is an object with an identity: the property
    holds its address, and a spread [{ ...answers }] copies the address,
    not the array. *)
Inductive slot :=
| Number (n : Z)
| Text (s : string)
| Address (a : nat).

(** An [answers] object, and the arrays made so far by address ([[]]
    makes the next one). *)
Definition object := gmap string slot.
Definition heap := list (list jsval).

Definition deref (h : heap) (s : slot) : jsval :=
  match s with
  | Number n => JNum n
  | Text s => JStr s
  | Address a => JArr (default [] (h !! a))
  end.

(** What an [answers] object holds when it is read with the arrays as
    they are in [h]. *)
Definition shows (h : heap) (o : object) : gmap string jsval :=
  deref h <$> o.

(** The [answers] cell of the component together with the arrays. *)
Record store := {
  held : object;
  arrays : heap
}.

(** [useState({})] *)
Definition initialStore : store := {| held := ∅; arrays := [] |}.

(** [handleAnswerSelect(currentQuestionData.id, index)] *)
Definition chooseOption (questionId : ident) (index : nat) (s : store)
    : store := {|
  held := <[keyOf questionId := Number (Z.of_nat index)]> (held s);
  arrays := arrays s
|}.

(** The [onChange] of the text areas. *)
Definition typeText (questionId : ident) (value : string) (s : store)
    : store := {|
  held := <[keyOf questionId := Text value]> (held s);
  arrays := arrays s
|}.

(** [if (!newAnswers[id]) newAnswers[id] = []] on the copy
    [newAnswers = { ...answers }]. *)
Definition ensureArray (key : string) (s : store) : store :=
  let fresh := {|
    held := <[key := Address (length (arrays s))]> (held s);
    arrays := arrays s ++ [[]]
  |} in
  match held s !! key with
  | Some v => if truthy (deref (arrays s) v) then s else fresh
  | None => fresh
  end.

(** The [onChange] of the input of blank [index]:
    [newAnswers[id][index] = value] writes into the array at the address
    the copy holds, then [setAnswers(newAnswers)]; on a number or a text
    the assignment throws and nothing is set. *)
Definition typeBlank (questionId : ident) (index : nat) (value : string)
    (s : store) : store * list effect :=
  let key := keyOf questionId in
  let newAnswers := ensureArray key s in
  match held newAnswers !! key with
  | Some (Address a) =>
      ({| held := held newAnswers;
          arrays := alter (fun items => assignIndex items index (JStr value))
                          a (arrays newAnswers) |}, [])
  | Some primitive =>
      (s, [Uncaught (primitiveAssignError (deref (arrays s) primitive) index)])
  | None => (s, [])
  end.

Definition recordInput (q : question) (input : answer_input) (s : store)
    : store * list effect :=
  match input with
  | ChooseOption index => (chooseOption (q_id q) index s, [])
  | TypeText value => (typeText (q_id q) value s, [])
  | TypeBlank index value => typeBlank (q_id q) index value s
  end.

(** Every address held is that of an array made, and no two properties
    hold the same array. *)
Definition wellFormed (s : store) : Prop :=
  (forall (key : string) (a : nat),
      held s !! key = Some (Address a) -> (a < length (arrays s))%nat)
  /\ (forall (key key' : string) (a : nat),
        held s !! key = Some (Address a) ->
        held s !! key' = Some (Address a) -> key = key').

(** What the [handleSubmit] of an earlier render sees when it runs now:
    the [attemptId], the [answers] object and the [questions] of that
    render, the object read with the arrays as they are now. *)
Definition seenBy (attemptId : optional string) (answers : object)
    (questions : list question) (now : store) : closure := {|
  cl_attemptId := attemptId;
  cl_answers := shows (arrays now) answers;
  cl_questions := questions
|}.

(** A fill-in-the-blank question with two blanks. *)
Definition sampleBlanks : question := {|
  q_id := IdStr "q3";
  q_type := "FILL_IN_THE_BLANK";
  q_images := Undefined;
  q_options := Defined [JObj [("text", JStr "Paris")];
                        JObj [("text", JStr "Seine")]]
|}.

End AnswerObjects.

(** ** Questions.jsx: the list, its pages and the question form *)

Module QuestionForm.
Import JS Questions.

(** *** Pages of the list *)

(** [questionsData?.data?.data?.pagination], whole numbers. *)
Record pagination := {
  page : Z;
  limit : Z;
  total : Z;
  pages : Z
}.

(** The two cells the query depends on. *)
Record paging := {
  currentPage : Z;
  pageSize : Z
}.

Definition handlePageChange (newPage : Z) (st : paging) : paging :=
  {| currentPage := newPage; pageSize := pageSize st |}.

Definition handlePageSizeChange (newPageSize : Z) (st : paging) : paging :=
  {| currentPage := 1; pageSize := newPageSize |}.

(** [Array.from({ length: Math.min(5, pagination.pages) }, (_, i) =>
      Math.max(1, Math.min(pagination.pages - 4, pagination.page - 2)) + i)]:
    the numbers on the page buttons. *)
Definition pageButtons (p : pagination) : list Z :=
  (fun i : nat =>
     Z.max 1 (Z.min (pages p - 4) (page p - 2)) + Z.of_nat i)
  <$> seq 0 (Z.to_nat (Z.min 5 (pages p))).

(** "Showing [from] to [to] of [total] questions". *)
Definition showingFrom (p : pagination) : Z := (page p - 1) * limit p + 1.
Definition showingTo (p : pagination) : Z := Z.min (page p * limit p) (total p).

(** The sizes offered by the select. *)
Definition pageSizes : list Z := [10; 20; 50; 100].

Inductive page_click :=
| PreviousPage
| NextPage
| PageNumber (button : nat)
| PageSize (choice : nat).

(** The controls are rendered when [pagination.pages > 1]; Previous is
    disabled when [page <= 1], Next when [page >= pages]. *)
Definition clickPage (p : pagination) (click : page_click) (st : paging)
    : paging :=
  if negb (1 <? pages p) then st else
  match click with
  | PreviousPage =>
      if page p <=? 1 then st else handlePageChange (page p - 1) st
  | NextPage =>
      if pages p <=? page p then st else handlePageChange (page p + 1) st
  | PageNumber button =>
      match pageButtons p !! button with
      | Some pageNum => handlePageChange pageNum st
      | None => st
      end
  | PageSize choice =>
      match pageSizes !! choice with
      | Some size => handlePageSizeChange size st
      | None => st
      end
  end.

(** *** The counters fed by the socket *)

Record stats := {
  totalQuestions : Z;
  questionsAdded : Z;
  questionsUpdated : Z
}.

Definition initialStats : stats :=
  {| totalQuestions := 0; questionsAdded := 0; questionsUpdated := 0 |}.

Inductive socket_event :=
| QuestionCreated
| QuestionUpdated.

(** [handleQuestionCreated] and [handleQuestionUpdated], as updates of
    [realTimeStats]; the component subscribes them to the socket's
    attempt-started and attempt-completed events. *)
Definition onSocketEvent (ev : socket_event) (prev : stats) : stats :=
  match ev with
  | QuestionCreated =>
      {| totalQuestions := totalQuestions prev + 1;
         questionsAdded := questionsAdded prev + 1;
         questionsUpdated := questionsUpdated prev |}
  | QuestionUpdated =>
      {| totalQuestions := totalQuestions prev;
         questionsAdded := questionsAdded prev;
         questionsUpdated := questionsUpdated prev + 1 |}
  end.

Definition isCreated (ev : socket_event) : bool :=
  match ev with
  | QuestionCreated => true
  | QuestionUpdated => false
  end.

(** *** The form *)

Record file := {
  file_name : string;
  file_type : string;
  file_size : Z
}.

(** An entry of [formData.images]: picked in the form, with its
    preview URL, or listed by the server (such an entry has no
    [file]). *)
Inductive image :=
| Uploaded (f : file) (preview : string)
| Stored (v : jsval).

Record form_data := {
  fd_question : jsval;
  fd_categoryId : jsval;
  fd_difficulty : jsval;
  fd_type : jsval;
  fd_correctAnswer : jsval;
  fd_options : list jsval;
  fd_explanation : jsval;
  fd_points : jsval;
  fd_timeLimit : jsval;
  fd_images : list image
}.

(** The form as it is opened for a new question. *)
Definition emptyForm : form_data := {|
  fd_question := JStr "";
  fd_categoryId := JStr "";
  fd_difficulty := JStr "EASY";
  fd_type := JStr "MULTIPLE_CHOICE";
  fd_correctAnswer := JStr "";
  fd_options := [JStr ""; JStr ""; JStr ""; JStr ""];
  fd_explanation := JStr "";
  fd_points := JNum 1;
  fd_timeLimit := JNum 60;
  fd_images := []
|}.

(** [{ ...formData, options }] and the like. *)
Definition withOptions (options : list jsval) (fd : form_data) : form_data := {|
  fd_question := fd_question fd;
  fd_categoryId := fd_categoryId fd;
  fd_difficulty := fd_difficulty fd;
  fd_type := fd_type fd;
  fd_correctAnswer := fd_correctAnswer fd;
  fd_options := options;
  fd_explanation := fd_explanation fd;
  fd_points := fd_points fd;
  fd_timeLimit := fd_timeLimit fd;
  fd_images := fd_images fd
|}.

Definition withQuestion (text : jsval) (fd : form_data) : form_data := {|
  fd_question := text;
  fd_categoryId := fd_categoryId fd;
  fd_difficulty := fd_difficulty fd;
  fd_type := fd_type fd;
  fd_correctAnswer := fd_correctAnswer fd;
  fd_options := fd_options fd;
  fd_explanation := fd_explanation fd;
  fd_points := fd_points fd;
  fd_timeLimit := fd_timeLimit fd;
  fd_images := fd_images fd
|}.

Definition withType (type : jsval) (fd : form_data) : form_data := {|
  fd_question := fd_question fd;
  fd_categoryId := fd_categoryId fd;
  fd_difficulty := fd_difficulty fd;
  fd_type := type;
  fd_correctAnswer := fd_correctAnswer fd;
  fd_options := fd_options fd;
  fd_explanation := fd_explanation fd;
  fd_points := fd_points fd;
  fd_timeLimit := fd_timeLimit fd;
  fd_images := fd_images fd
|}.

Definition withImages (images : list image) (fd : form_data) : form_data := {|
  fd_question := fd_question fd;
  fd_categoryId := fd_categoryId fd;
  fd_difficulty := fd_difficulty fd;
  fd_type := fd_type fd;
  fd_correctAnswer := fd_correctAnswer fd;
  fd_options := fd_options fd;
  fd_explanation := fd_explanation fd;
  fd_points := fd_points fd;
  fd_timeLimit := fd_timeLimit fd;
  fd_images := images
|}.

(** **** The option inputs of a multiple-choice question *)

(** [newOptions = [...formData.options]; newOptions[index] = value] *)
Definition handleOptionChange (index : nat) (value : string)
    (fd : form_data) : form_data :=
  withOptions (ExamInterface.assignIndex (fd_options fd) index (JStr value)) fd.

Definition addOption (fd : form_data) : form_data :=
  withOptions (fd_options fd ++ [JStr ""]) fd.

(** [arr.filter((x, i) => keep(x, i))] *)
Fixpoint filterIndexed {A} (keep : A -> nat -> bool) (i : nat) (l : list A)
    : list A :=
  match l with
  | [] => []
  | x :: rest =>
      if keep x i then x :: filterIndexed keep (S i) rest
      else filterIndexed keep (S i) rest
  end.

(** [formData.options.filter((_, i) => i !== index)] *)
Definition removeOption (index : nat) (fd : form_data) : form_data :=
  withOptions
    (filterIndexed (fun _ i => negb (i =? index)%nat) 0 (fd_options fd)) fd.

(** [formData.images.filter((_, i) => i !== index)] *)
Definition removeImage (index : nat) (fd : form_data) : form_data :=
  withImages
    (filterIndexed (fun _ i => negb (i =? index)%nat) 0 (fd_images fd)) fd.

(** What the option inputs allow: there is an input for every option,
    a Remove button beside each while there are more than two, and the
    Add Option button. *)
Inductive option_edit :=
| EditOption (index : nat) (value : string)
| RemoveOption (index : nat)
| AddOption.

Definition editOptions (edit : option_edit) (fd : form_data) : form_data :=
  match edit with
  | EditOption index value =>
      if (index <? length (fd_options fd))%nat
      then handleOptionChange index value fd else fd
  | RemoveOption index =>
      if (2 <? length (fd_options fd))%nat
         && (index <? length (fd_options fd))%nat
      then removeOption index fd else fd
  | AddOption => addOption fd
  end.

(** **** The blanks of a fill-in-the-blank question *)

(** [text.match(/\([^)]*\)/g)], as one pass over the text: outside a
    match an opening parenthesis starts one, inside it everything up to
    the next closing parenthesis belongs to it.  An opening parenthesis
    that no closing one follows starts no match, and none can start
    after it. *)
Fixpoint scanBlanks (current : option string) (s : string) : list string :=
  match s with
  | "" => []
  | String c rest =>
      match current with
      | None =>
          if Ascii.eqb c "(" then scanBlanks (Some "(") rest
          else scanBlanks None rest
      | Some m =>
          if Ascii.eqb c ")"
          then (m +:+ ")") :: scanBlanks None rest
          else scanBlanks (Some (m +:+ String c "")) rest
      end
  end.

(** [null] when there is no match. *)
Definition matchBlanks (text : string) : option (list string) :=
  match scanBlanks None text with
  | [] => None
  | matches => Some matches
  end.

(** [match.slice(1, -1)] *)
Definition sliceInside (m : string) : string :=
  String.substring 1 (String.length m - 2) m.

(** The [onChange] of the text area of a fill-in-the-blank question:
    the text is stored, and when it has a match the options are made
    anew from the matches. *)
Definition handleBlankTextChange (text : string) (fd : form_data)
    : form_data :=
  match matchBlanks text with
  | Some matches =>
      withOptions
        ((fun m => JObj [("text", JStr (sliceInside m));
                         ("isCorrect", JBool false)]) <$> matches)
        (withQuestion (JStr text) fd)
  | None => withQuestion (JStr text) fd
  end.

(** **** Images *)

Definition validTypes : list string :=
  ["image/jpeg"; "image/jpg"; "image/png"; "image/gif"; "image/webp"].

(** [5 * 1024 * 1024] *)
Definition maxSize : Z := 5 * 1024 * 1024.

Inductive effect :=
| ErrorToast (msg : string)
| CreateQuestion (questionData : jsval) (files : list file)
| UpdateQuestion (questionId : jsval) (questionData : jsval)
| Uncaught (e : js_error).

Definition is_request (e : effect) : bool :=
  match e with
  | CreateQuestion _ _ | UpdateQuestion _ _ => true
  | _ => false
  end.

(** The callback of [files.filter]: the toast of a file that is
    refused, [None] for a file that is kept. *)
Definition refusal (f : file) : option string :=
  if negb (existsb (String.eqb (file_type f)) validTypes)
  then Some (file_name f +:+ " is not a valid image type")
  else if maxSize <? file_size f
  then Some (file_name f +:+ " is too large. Maximum size is 5MB")
  else None.

Definition isValidFile (f : file) : bool :=
  match refusal f with
  | None => true
  | Some _ => false
  end.

Section Runtime.

(** [URL.createObjectURL] and [String.prototype.trim], as the runtime
    provides them. *)
Variable createObjectURL : file -> string.
Variable trim : string -> string.

Definition handleImageUpload (files : list file) (fd : form_data)
    : form_data * list effect :=
  let toasts := ErrorToast <$> omap refusal files in
  let validFiles := List.filter isValidFile files in
  if (5 <? length validFiles + length (fd_images fd))%nat then
    (fd, toasts ++ [ErrorToast "Maximum 5 images allowed per question"])
  else
    (withImages
       (fd_images fd
        ++ ((fun f => Uploaded f (createObjectURL f)) <$> validFiles)) fd,
     toasts).

(** **** Saving *)

(** [a === b] for the values of the form: NaN equals nothing, and two
    arrays or objects are equal only when they are one, which an option
    and the correct answer are not. *)
Definition strictEquals (a b : jsval) : bool :=
  match a, b with
  | JUndefined, JUndefined | JNull, JNull => true
  | JBool x, JBool y => Bool.eqb x y
  | JNum x, JNum y => x =? y
  | JStr x, JStr y => String.eqb x y
  | _, _ => false
  end.

(** [v.trim()] for [v] written [what] in the source (the TypeErrors in
    V8's wording). *)
Definition callTrim (what : string) (v : jsval) : result jsval :=
  match v with
  | JStr s => Ok (JStr (trim s))
  | JUndefined =>
      Throw (TypeError "Cannot read properties of undefined (reading 'trim')")
  | JNull =>
      Throw (TypeError "Cannot read properties of null (reading 'trim')")
  | _ => Throw (TypeError (what +:+ ".trim is not a function"))
  end.

(** [arr.filter(x => keep(x))] with a callback that may throw. *)
Fixpoint filterResult (keep : jsval -> result bool) (l : list jsval)
    : result (list jsval) :=
  match l with
  | [] => Ok []
  | x :: rest =>
      k <- keep x ;;
      kept <- filterResult keep rest ;;
      Ok (if k : bool then x :: kept else kept)
  end.

(** [opt => opt.trim()] *)
Definition nonBlank (opt : jsval) : result bool :=
  trimmed <- callTrim "opt" opt ;;
  Ok (truthy trimmed).

(** [opt => opt.text && opt.text.trim()] *)
Definition nonBlankText (opt : jsval) : result bool :=
  text <- get opt "text" ;;
  if truthy text then
    trimmed <- callTrim "opt.text" text ;;
    Ok (truthy trimmed)
  else Ok false.

(** The [options] of [questionData]. *)
Definition buildOptions (fd : form_data) : result jsval :=
  if isChoiceType (fd_type fd) then
    if strictEquals (fd_type fd) (JStr "MULTIPLE_CHOICE") then
      kept <- filterResult nonBlank (fd_options fd) ;;
      Ok (JArr ((fun option =>
                   JObj [("text", option);
                         ("isCorrect",
                          JBool (strictEquals option (fd_correctAnswer fd)))])
                <$> kept))
    else
      kept <- filterResult nonBlankText (fd_options fd) ;;
      Ok (JArr kept)
  else Ok (JArr []).

(** The condition both save handlers start with. *)
Definition formComplete (fd : form_data) : bool :=
  truthy (fd_question fd) && truthy (fd_categoryId fd)
  && (if strictEquals (fd_type fd) (JStr "FILL_IN_THE_BLANK")
      then (0 <? length (fd_options fd))%nat
      else truthy (fd_correctAnswer fd)).

(** [formData.images.forEach(image => { if (image.file) ... })] *)
Definition pickedFiles (images : list image) : list file :=
  omap (fun image =>
          match image with
          | Uploaded f _ => Some f
          | Stored _ => None
          end) images.

(** [handleAddQuestion]: the request carries [questionData] (as text)
    and the picked files. *)
Definition handleAddQuestion (fd : form_data) : list effect :=
  if formComplete fd then
    match buildOptions fd with
    | Ok options =>
        [CreateQuestion
           (JObj [("text", fd_question fd);
                  ("examCategoryId", fd_categoryId fd);
                  ("difficulty", fd_difficulty fd);
                  ("type", fd_type fd);
                  ("marks", fd_points fd);
                  ("timeLimit", fd_timeLimit fd);
                  ("options", options);
                  ("explanation", fd_explanation fd)])
           (pickedFiles (fd_images fd))]
    | Throw e => [Uncaught e]
    end
  else [ErrorToast "Please fill in all required fields"].

(** [handleUpdateQuestion], for the question being edited. *)
Definition handleUpdateQuestion (editingQuestion : jsval) (fd : form_data)
    : list effect :=
  if formComplete fd then
    match (options <- buildOptions fd ;;
           questionId <- get editingQuestion "id" ;;
           Ok (questionId, options)) with
    | Ok (questionId, options) =>
        [UpdateQuestion questionId
           (JObj [("text", fd_question fd);
                  ("examCategoryId", fd_categoryId fd);
                  ("difficulty", fd_difficulty fd);
                  ("type", fd_type fd);
                  ("marks", fd_points fd);
                  ("timeLimit", fd_timeLimit fd);
                  ("options", options)])]
    | Throw e => [Uncaught e]
    end
  else [ErrorToast "Please fill in all required fields"].

End Runtime.

(** **** Opening a question for editing *)

(** [question.options?.map(opt => opt.text) || ['', '', '', '']] *)
Definition editOptionsOf (options : jsval) : result (list jsval) :=
  match options with
  | JArr items => map_indexed (fun opt _ => get opt "text") 0 items
  | JUndefined | JNull => Ok [JStr ""; JStr ""; JStr ""; JStr ""]
  | _ => Throw (TypeError "question.options?.map is not a function")
  end.

(** [question.images || []], which the server sends as an array or
    not at all. *)
Definition editImagesOf (images : jsval) : list image :=
  match images with
  | JArr items => Stored <$> items
  | _ => []
  end.

(** The object [handleEditQuestion] gives to [setFormData]. *)
Definition handleEditQuestion (question : jsval) : result form_data :=
  text <- get question "text" ;;
  examCategoryId <- get question "examCategoryId" ;;
  difficulty <- get question "difficulty" ;;
  type <- get question "type" ;;
  correctAnswer <- get question "correctAnswer" ;;
  options <- get question "options" ;;
  options <- editOptionsOf options ;;
  explanation <- get question "explanation" ;;
  marks <- get question "marks" ;;
  timeLimit <- get question "timeLimit" ;;
  images <- get question "images" ;;
  Ok {| fd_question := text;
        fd_categoryId := examCategoryId;
        fd_difficulty := difficulty;
        fd_type := type;
        fd_correctAnswer := correctAnswer;
        fd_options := options;
        fd_explanation := js_or explanation (JStr "");
        fd_points := js_or marks (JNum 1);
        fd_timeLimit := js_or timeLimit (JNum 60);
        fd_images := editImagesOf images |}.

(** **** Sample runtime and data for the statements *)

(** [trim] on text whose white space is plain spaces, tabs and line
    breaks. *)
Fixpoint dropSpaces (s : string) : string :=
  match s with
  | String c rest => if Ascii.is_space c then dropSpaces rest else s
  | "" => ""
  end.

Definition trimAscii (s : string) : string :=
  String.rev (dropSpaces (String.rev (dropSpaces s))).

Definition sampleObjectURL (f : file) : string := "blob:" +:+ file_name f.

(** A filled-in form for "2 + 2 = ?". *)
Definition sampleForm (type correctAnswer : string) (options : list jsval)
    : form_data := {|
  fd_question := JStr "2 + 2 = ?";
  fd_categoryId := JStr "cat_001";
  fd_difficulty := JStr "EASY";
  fd_type := JStr type;
  fd_correctAnswer := JStr correctAnswer;
  fd_options := options;
  fd_explanation := JStr "";
  fd_points := JNum 1;
  fd_timeLimit := JNum 60;
  fd_images := []
|}.

(** Two questions as the list holds them, and an essay entry for bulk
    insert that comes with an explanation. *)
Definition sampleBlankQuestion : jsval :=
  JObj [("id", JStr "q_17");
        ("text", JStr "The (cat) sat on the (mat).");
        ("examCategoryId", JStr "cat_001");
        ("difficulty", JStr "EASY");
        ("type", JStr "FILL_IN_THE_BLANK");
        ("marks", JNum 2);
        ("options",
         JArr [JObj [("text", JStr "cat"); ("isCorrect", JBool true)];
               JObj [("text", JStr "mat"); ("isCorrect", JBool true)]])].

Definition sampleChoiceQuestion : jsval :=
  JObj [("id", JStr "q_18");
        ("text", JStr "2 + 2 = ?");
        ("examCategoryId", JStr "cat_001");
        ("difficulty", JStr "EASY");
        ("type", JStr "MULTIPLE_CHOICE");
        ("correctAnswer", JStr "3");
        ("marks", JNum 1);
        ("options",
         JArr [JObj [("text", JStr "3"); ("isCorrect", JBool false)];
               JObj [("text", JStr "4"); ("isCorrect", JBool true)]])].

Definition sampleEssayEntry : jsval :=
  JObj [("text", JStr "Why?"); ("examCategoryId", JStr "cat_001");
        ("type", JStr "ESSAY"); ("explanation", JStr "Because.");
        ("options", JArr [JObj [("text", JStr "Because.")]])].

(** A text is put together from pieces, each some words followed by a
    blank in parentheses, and the words after the last blank. *)
Definition withBlanks (pieces : list (string * string)) (tail : string)
    : string :=
  foldr (fun piece rest => piece.1 +:+ "(" +:+ piece.2 +:+ ")" +:+ rest)
        tail pieces.

Fixpoint hasChar (c : ascii) (s : string) : bool :=
  match s with
  | "" => false
  | String c' rest => Ascii.eqb c' c || hasChar c rest
  end.

Definition isString (v : jsval) : bool :=
  match v with
  | JStr _ => true
  | _ => false
  end.

End QuestionForm.

(** * Properties *)

(** ** Bulk insert *)

Module QuestionsSpec.
Import JS Questions.

Section MapIndexed.
Context {A B : Type} (f : A -> nat -> result B).

Lemma map_indexed_ok (l : list A) : forall (k : nat) (ys : list B),
  map_indexed f k l = Ok ys ->
  length ys = length l /\
  forall (i : nat) (x : A) (y : B),
    l !! i = Some x -> ys !! i = Some y -> f x (k + i)%nat = Ok y.
Proof.
  induction l as [|a l IH]; intros k ys H; simpl in H.
  - injection H as <-. split; [done|]. intros i x y Hx. by destruct i.
  - destruct (f a k) as [e|b] eqn:Hfa; simpl in H; [discriminate|].
    destruct (map_indexed f (S k) l) as [e|bs] eqn:Hrest; simpl in H;
      [discriminate|].
    injection H as <-.
    destruct (IH _ _ Hrest) as [Hlen Hall].
    split; [simpl; by rewrite Hlen|].
    intros [|i] x y Hx Hy; simpl in *.
    + injection Hx as <-. injection Hy as <-. by rewrite Nat.add_0_r.
    + rewrite <- Nat.add_succ_comm. by apply Hall.
Qed.

Lemma map_indexed_throws_somewhere (l : list A) (k i : nat) (x : A) (e : js_error) :
  l !! i = Some x -> f x (k + i)%nat = Throw e ->
  exists e' : js_error, map_indexed f k l = Throw e'.
Proof.
  intros Hx Hthrow.
  destruct (map_indexed f k l) as [e'|ys] eqn:Hmap; [by exists e'|].
  destruct (map_indexed_ok _ _ _ Hmap) as [Hlen Hall].
  destruct (ys !! i) as [y|] eqn:Hy.
  - rewrite (Hall _ _ _ Hx Hy) in Hthrow. discriminate.
  - apply lookup_ge_None in Hy. apply lookup_lt_Some in Hx. lia.
Qed.

Lemma map_indexed_first_throw (l : list A) : forall (k i : nat) (x : A) (e : js_error),
  l !! i = Some x -> f x (k + i)%nat = Throw e ->
  (forall (j : nat) (x' : A), (j < i)%nat -> l !! j = Some x' ->
     exists y : B, f x' (k + j)%nat = Ok y) ->
  map_indexed f k l = Throw e.
Proof.
  induction l as [|a l IH]; intros k i x e Hx Hthrow Hbefore.
  - by destruct i.
  - destruct i as [|i]; simpl in *.
    + injection Hx as ->. rewrite Nat.add_0_r in Hthrow. by rewrite Hthrow.
    + destruct (Hbefore 0%nat a) as [y Hy]; [lia|done|].
      rewrite Nat.add_0_r in Hy. rewrite Hy. simpl.
      rewrite (IH (S k) i x e); [done|done| |].
      * by rewrite Nat.add_succ_comm.
      * intros j x' Hj Hx'. rewrite Nat.add_succ_comm.
        apply (Hbefore (S j)); [lia|done].
Qed.

End MapIndexed.

Lemma get_field (v : jsval) (name : string) :
  nullish v = false -> get v name = Ok (field v name).
Proof. by destruct v. Qed.

Lemma get_nullish_throws (v : jsval) (name : string) :
  nullish v = true -> exists e : js_error, get v name = Throw e.
Proof. destruct v; try discriminate; intros _; eexists; reflexivity. Qed.

Lemma missingRequired_field (q : jsval) :
  nullish q = false -> missingRequired q = Ok (missingField q).
Proof.
  intros Hq. unfold missingRequired, missingField.
  rewrite !get_field by done. simpl.
  destruct (truthy (field q "text")); [|done]. simpl.
  destruct (truthy (field q "examCategoryId")); done.
Qed.

Lemma validate_missing (q : jsval) (index : nat) :
  nullish q = false -> missingField q = true ->
  validateQuestion q index = Throw (Error (missingMessage index)).
Proof.
  intros Hq Hm. unfold validateQuestion.
  by rewrite missingRequired_field, Hm.
Qed.

Lemma validate_missing_throws (q : jsval) (index : nat) :
  missingField q = true ->
  exists e : js_error, validateQuestion q index = Throw e.
Proof.
  intros Hm. destruct (nullish q) eqn:Hq.
  - destruct (get_nullish_throws q "text" Hq) as [e He].
    exists e. unfold validateQuestion, missingRequired. by rewrite He.
  - eexists. by apply validate_missing.
Qed.

(** The handler ends in one of two ways: one error toast, or one request
    that carries an entry for every entry of the input. *)
Lemma bulk_insert_all_or_nothing
    (JSON_parse : string -> result jsval) (bulkData : string) :
  (exists msg : string,
      handleBulkInsert JSON_parse bulkData = [ToastError msg])
  \/ (exists (items out : list jsval),
        JSON_parse bulkData = Ok (JArr items)
        /\ map_indexed validateQuestion 0 items = Ok out
        /\ handleBulkInsert JSON_parse bulkData = [BulkCreateQuestions out]).
Proof.
  unfold handleBulkInsert, bulkInsertBody.
  destruct (JSON_parse bulkData) as [e|v]; simpl; [eauto|].
  destruct v; simpl; eauto.
  destruct (map_indexed validateQuestion 0 items) as [e|out] eqn:Hmap; simpl.
  - eauto.
  - right. by exists items, out.
Qed.

(** C5, as the handler has it: malformed JSON, a value that is no array,
    or an entry without [text], [examCategoryId] or [type] ends the
    handler with exactly one error toast and no request, so nothing of
    the batch is submitted.  The toast carries the parser's message for
    malformed JSON, a fixed text for a non-array, and names entry
    [i + 1] when entry [i] is the first one the handler stops at and it
    stops there on the required-fields check. *)
Theorem bulk_insert_rejects_invalid_input
    (JSON_parse : string -> result jsval) (bulkData : string) :
  invalidInput (JSON_parse bulkData) ->
  (exists msg : string,
      handleBulkInsert JSON_parse bulkData = [ToastError msg])
  /\ Forall (fun e => is_network_call e = false)
            (handleBulkInsert JSON_parse bulkData)
  /\ (forall e : js_error,
        JSON_parse bulkData = Throw e ->
        handleBulkInsert JSON_parse bulkData
        = [ToastError ("Invalid JSON format: " +:+ message e)])
  /\ (forall v : jsval,
        JSON_parse bulkData = Ok v -> isArray v = false ->
        handleBulkInsert JSON_parse bulkData
        = [ToastError "JSON data must be an array of questions"])
  /\ (forall (items : list jsval) (i : nat),
        JSON_parse bulkData = Ok (JArr items) ->
        firstFailureIsMissingField items i ->
        handleBulkInsert JSON_parse bulkData
        = [ToastError ("Invalid JSON format: " +:+ missingMessage i)]).
Proof.
  intros Hinvalid.
  assert (Htoast : exists msg : string,
             handleBulkInsert JSON_parse bulkData = [ToastError msg]).
  { destruct (bulk_insert_all_or_nothing JSON_parse bulkData)
      as [?|(items & out & Hparse & Hmap & _)]; [done|].
    rewrite Hparse in Hinvalid. destruct Hinvalid as (i & q & Hq & Hmiss).
    destruct (validate_missing_throws q (0 + i) Hmiss) as [e He].
    destruct (map_indexed_throws_somewhere validateQuestion items 0 i q e Hq He)
      as [e' He'].
    congruence. }
  split; [done|]. split.
  { destruct Htoast as [msg ->]. by repeat constructor. }
  unfold handleBulkInsert, bulkInsertBody.
  split; [|split].
  - by intros e ->.
  - intros v -> Hv. by destruct v.
  - intros items i -> [(q & Hq & Hnull & Hmiss) Hbefore]. simpl.
    rewrite (map_indexed_first_throw validateQuestion items 0 i q
               (Error (missingMessage i))); [done|done| |].
    + by apply validate_missing.
    + intros j q' Hj Hq'. simpl. by apply Hbefore.
Qed.

(** The spec's own example, [[{"type":"MULTIPLE_CHOICE"}]]: rejected
    with the message for entry 1. *)
Lemma bulk_insert_rejects_invalid_input_witness :
  invalidInput (parsesTo (JArr [entryWithOnlyType]) "")
  /\ handleBulkInsert (parsesTo (JArr [entryWithOnlyType])) ""
     = [ToastError "Invalid JSON format: Question 1 is missing required fields (text, examCategoryId, type)"].
Proof.
  assert (H : invalidInput (parsesTo (JArr [entryWithOnlyType]) "")).
  { exists 0%nat, entryWithOnlyType. split; reflexivity. }
  split; [exact H|].
  destruct (bulk_insert_rejects_invalid_input
              (parsesTo (JArr [entryWithOnlyType])) "" H)
    as (_ & _ & _ & _ & Hnamed).
  apply (Hnamed [entryWithOnlyType] 0%nat); [reflexivity|].
  split.
  - exists entryWithOnlyType. repeat split; reflexivity.
  - intros j q' Hj. lia.
Defined.

(** C5 as the claim words it fails: an entry without [text] need not be
    named by the toast.  In [[{..., "options": 5}, {}]] entry 2 has no
    field at all, yet the handler stops at the options of entry 1; in
    [[null]] reading [text] itself throws.  Either way the toast carries
    the runtime's message, which names no entry. *)
Lemma bulk_insert_message_without_index :
  (missingField (JObj []) = true
   /\ handleBulkInsert
        (parsesTo (JArr [completeEntry "MULTIPLE_CHOICE" (JNum 5); JObj []])) ""
      = [ToastError "Invalid JSON format: q.options.map is not a function"]
   /\ forall i : nat,
        handleBulkInsert
          (parsesTo (JArr [completeEntry "MULTIPLE_CHOICE" (JNum 5); JObj []])) ""
        <> [ToastError ("Invalid JSON format: " +:+ missingMessage i)])
  /\ (missingField JNull = true
      /\ handleBulkInsert (parsesTo (JArr [JNull])) ""
         = [ToastError "Invalid JSON format: Cannot read properties of null (reading 'text')"]
      /\ forall i : nat,
           handleBulkInsert (parsesTo (JArr [JNull])) ""
           <> [ToastError ("Invalid JSON format: " +:+ missingMessage i)]).
Proof.
  repeat split; try reflexivity; intros i H; vm_compute in H; discriminate H.
Qed.

Lemma normalizeOption_ok (option o : jsval) :
  normalizeOption option = Ok o ->
  o = JObj [("text", js_or (field option "text") option);
            ("isCorrect", js_or (field option "isCorrect") (JBool false))].
Proof.
  unfold normalizeOption. destruct (nullish option) eqn:Hn.
  - destruct (get_nullish_throws option "text" Hn) as [e ->]. discriminate.
  - rewrite !get_field by done. simpl. congruence.
Qed.

Lemma mapOptions_ok (options o : jsval) :
  mapOptions options = Ok o ->
  exists (opts normalized : list jsval),
    options = JArr opts /\ o = JArr normalized
    /\ Forall2 (fun opt n => normalizeOption opt = Ok n) opts normalized.
Proof.
  destruct options; try discriminate. simpl.
  destruct (map_indexed _ 0 items) as [e|normalized] eqn:Hmap;
    simpl; [discriminate|].
  intros [= <-]. exists items, normalized. repeat split.
  destruct (map_indexed_ok _ _ _ _ Hmap) as [Hlen Hall].
  apply Forall2_same_length_lookup_2; [done|].
  intros i x y Hx Hy. exact (Hall i x y Hx Hy).
Qed.

(** What a validated entry turns into. *)
Lemma validate_ok (q : jsval) (index : nat) (o : jsval) :
  validateQuestion q index = Ok o ->
  missingField q = false /\
  exists options : jsval,
    (if isChoiceType (field q "type") && truthy (field q "options")
     then mapOptions (field q "options")
     else Ok (field q "options")) = Ok options
    /\ o = JObj [("text", field q "text");
                 ("examCategoryId", field q "examCategoryId");
                 ("difficulty", js_or (field q "difficulty") (JStr "EASY"));
                 ("type", field q "type");
                 ("marks", js_or (field q "marks") (JNum 1));
                 ("timeLimit", js_or (field q "timeLimit") (JNum 60));
                 ("options", if isChoiceType (field q "type")
                             then js_or options (JArr []) else JArr [])].
Proof.
  unfold validateQuestion. destruct (nullish q) eqn:Hn.
  - unfold missingRequired.
    destruct (get_nullish_throws q "text" Hn) as [e ->]. discriminate.
  - rewrite missingRequired_field by done. simpl.
    destruct (missingField q); [discriminate|].
    rewrite !get_field by done. simpl.
    destruct (if isChoiceType (field q "type") && truthy (field q "options")
              then mapOptions (field q "options")
              else Ok (field q "options")) as [e|options]; simpl;
      [discriminate|].
    intros [= <-]. split; [done|]. by exists options.
Qed.

(** C7, as the handler has it: every entry of a submitted batch has
    [difficulty], [marks] and [timeLimit] replaced by ['EASY'], [1] and
    [60] when absent (or falsy).  For MULTIPLE_CHOICE and
    FILL_IN_THE_BLANK entries a present [options] is an array and every
    option is turned into a [{text, isCorrect}] pair, [isCorrect] being
    [false] unless given; an absent [options] is submitted as the empty
    list.  Entries of every other type are submitted with the empty
    list. *)
Theorem bulk_insert_defaults_and_options
    (JSON_parse : string -> result jsval) (bulkData : string)
    (out : list jsval) :
  handleBulkInsert JSON_parse bulkData = [BulkCreateQuestions out] ->
  exists items : list jsval,
    JSON_parse bulkData = Ok (JArr items)
    /\ length out = length items
    /\ forall (i : nat) (q o : jsval),
         items !! i = Some q -> out !! i = Some o ->
         field o "difficulty" = js_or (field q "difficulty") (JStr "EASY")
         /\ (field q "difficulty" = JUndefined ->
             field o "difficulty" = JStr "EASY")
         /\ field o "marks" = js_or (field q "marks") (JNum 1)
         /\ (field q "marks" = JUndefined -> field o "marks" = JNum 1)
         /\ field o "timeLimit" = js_or (field q "timeLimit") (JNum 60)
         /\ (field q "timeLimit" = JUndefined ->
             field o "timeLimit" = JNum 60)
         /\ (isChoiceType (field q "type") = true ->
             (truthy (field q "options") = false ->
              field o "options" = JArr [])
             /\ (truthy (field q "options") = true ->
                 exists (opts normalized : list jsval),
                   field q "options" = JArr opts
                   /\ field o "options" = JArr normalized
                   /\ Forall2
                        (fun opt n =>
                           n = JObj [("text", js_or (field opt "text") opt);
                                     ("isCorrect",
                                      js_or (field opt "isCorrect")
                                            (JBool false))])
                        opts normalized))
         /\ (isChoiceType (field q "type") = false ->
             field o "options" = JArr []).
Proof.
  intros Hsubmit.
  destruct (bulk_insert_all_or_nothing JSON_parse bulkData)
    as [[msg Hmsg]|(items & out' & Hparse & Hmap & Hout)]; [congruence|].
  assert (out' = out) as -> by congruence.
  exists items. split; [done|].
  destruct (map_indexed_ok _ _ _ _ Hmap) as [Hlen Hall].
  split; [done|].
  intros i q o Hq Ho.
  destruct (validate_ok _ _ _ (Hall i q o Hq Ho))
    as (_ & options & Hoptions & ->).
  simpl.
  split; [done|]. split; [by intros ->|].
  split; [done|]. split; [by intros ->|].
  split; [done|]. split; [by intros ->|].
  split.
  - intros Htype. rewrite Htype in *. simpl in Hoptions. split.
    + intros Hfalsy. rewrite Hfalsy in Hoptions.
      injection Hoptions as <-. unfold js_or. by rewrite Hfalsy.
    + intros Htruthy. rewrite Htruthy in Hoptions.
      destruct (mapOptions_ok _ _ Hoptions)
        as (opts & normalized & Hopts & -> & Hnorm).
      exists opts, normalized. repeat split; [done|].
      eapply Forall2_impl; [exact Hnorm|].
      intros opt n. apply normalizeOption_ok.
  - by intros ->.
Qed.

(** The sample of the bulk-insert form without its optional fields and
    with one bare string among the options. *)
Lemma bulk_insert_defaults_and_options_witness :
  handleBulkInsert
    (parsesTo (JArr [completeEntry "MULTIPLE_CHOICE"
                       (JArr [JStr "3";
                              JObj [("text", JStr "4");
                                    ("isCorrect", JBool true)]])])) ""
  = [BulkCreateQuestions
       [JObj [("text", JStr "2 + 2 = ?");
              ("examCategoryId", JStr "cat_001");
              ("difficulty", JStr "EASY");
              ("type", JStr "MULTIPLE_CHOICE");
              ("marks", JNum 1);
              ("timeLimit", JNum 60);
              ("options",
               JArr [JObj [("text", JStr "3"); ("isCorrect", JBool false)];
                     JObj [("text", JStr "4"); ("isCorrect", JBool true)]])]]]
  /\ exists items : list jsval,
       parsesTo (JArr [completeEntry "MULTIPLE_CHOICE"
                         (JArr [JStr "3";
                                JObj [("text", JStr "4");
                                      ("isCorrect", JBool true)]])]) ""
       = Ok (JArr items)
       /\ length items = 1%nat.
Proof.
  assert (H : handleBulkInsert
    (parsesTo (JArr [completeEntry "MULTIPLE_CHOICE"
                       (JArr [JStr "3";
                              JObj [("text", JStr "4");
                                    ("isCorrect", JBool true)]])])) ""
  = [BulkCreateQuestions
       [JObj [("text", JStr "2 + 2 = ?");
              ("examCategoryId", JStr "cat_001");
              ("difficulty", JStr "EASY");
              ("type", JStr "MULTIPLE_CHOICE");
              ("marks", JNum 1);
              ("timeLimit", JNum 60);
              ("options",
               JArr [JObj [("text", JStr "3"); ("isCorrect", JBool false)];
                     JObj [("text", JStr "4"); ("isCorrect", JBool true)]])]]])
    by reflexivity.
  split; [exact H|].
  destruct (bulk_insert_defaults_and_options _ _ _ H)
    as (items & Hparse & Hlen & _).
  exists items. split; [exact Hparse|]. simpl in Hlen. by rewrite <- Hlen.
Defined.

(** C7 as the claim words it fails where it calls the options list
    required: a MULTIPLE_CHOICE entry without [options] passes the
    validation and is submitted with the empty list. *)
Lemma bulk_insert_options_not_required :
  isChoiceType (field entryWithoutOptions "type") = true
  /\ field entryWithoutOptions "options" = JUndefined
  /\ handleBulkInsert (parsesTo (JArr [entryWithoutOptions])) ""
     = [BulkCreateQuestions
          [JObj [("text", JStr "2 + 2 = ?");
                 ("examCategoryId", JStr "cat_001");
                 ("difficulty", JStr "EASY");
                 ("type", JStr "MULTIPLE_CHOICE");
                 ("marks", JNum 1);
                 ("timeLimit", JNum 60);
                 ("options", JArr [])]]].
Proof. repeat split. Qed.

End QuestionsSpec.

(** ** The exam runner *)

Module ExamInterfaceSpec.
Import JS ExamInterface.

(** *** Submission and the countdown *)

Section Countdown.
Variable confirm : string -> bool.
Variable cl : closure.

Lemma handleSubmit_active (attemptId : string) :
  activeId (cl_attemptId cl) = Some attemptId ->
  handleSubmit confirm cl
  = WindowConfirm (confirmationSummary cl)
    :: (if confirm (confirmationSummary cl)
        then [SubmitAttempt attemptId
                (buildResponses (cl_answers cl) (cl_questions cl))]
        else []).
Proof. intros H. unfold handleSubmit. by rewrite H. Qed.

Lemma tick_expiry (t : timer) :
  running t = true -> remaining t <= 1 ->
  tick confirm cl t = (stopped, ClearInterval :: handleSubmit confirm cl).
Proof.
  intros Hrun Hle. unfold tick, timerCallback. rewrite Hrun.
  by destruct (Z.leb_spec (remaining t) 1); [|lia].
Qed.

Lemma tick_decrement (t : timer) :
  running t = true -> 1 < remaining t ->
  tick confirm cl t
  = ({| remaining := remaining t - 1; running := true |}, []).
Proof.
  intros Hrun Hlt. unfold tick, timerCallback. rewrite Hrun.
  by destruct (Z.leb_spec (remaining t) 1); [lia|].
Qed.

Lemma ticks_stopped (n : nat) : ticks confirm cl n stopped = (stopped, []).
Proof. induction n as [|n IH]; [done|]. simpl. by rewrite IH. Qed.

Lemma ticks_before_expiry (k : nat) : forall t : timer,
  running t = true -> Z.of_nat k < remaining t ->
  ticks confirm cl k t
  = ({| remaining := remaining t - Z.of_nat k; running := true |}, []).
Proof.
  induction k as [|k IH]; intros t Hrun Hlt.
  - simpl. rewrite Z.sub_0_r. destruct t; simpl in *; by subst.
  - cbn [ticks]. rewrite tick_decrement by (done || lia).
    rewrite IH by (simpl; done || lia). simpl.
    do 2 f_equal. lia.
Qed.


End Countdown.

Lemma startTimer_Some (st : state) (t : timer) (cl : closure) :
  startTimer st = Some (t, cl) ->
  t = {| remaining := timeLeft st; running := true |}
  /\ cl = closureOf st
  /\ isSubmitted st = false
  /\ exists id : string, activeId (attemptId st) = Some id.
Proof.
  unfold startTimer.
  destruct (truthyId (attemptId st)) eqn:Hid; simpl; [|discriminate].
  destruct (isSubmitted st); [discriminate|].
  intros [= <- <-]. repeat split.
  unfold truthyId, activeId in *.
  destruct (attemptId st) as [| |s]; try discriminate.
  destruct (String.eqb s ""); [discriminate|]. by exists s.
Qed.

(** C1, as the component has it: the countdown calls the same
    [handleSubmit] as the Submit Test button.  With an active attempt
    id both show the confirmation summary, and the submit request goes
    out only when the exam taker confirms; on expiry the interval is
    cleared first. *)
Theorem submission_asks_for_confirmation (confirm : string -> bool) :
  (forall (st : state) (id : string),
      activeId (attemptId st) = Some id ->
      clickSubmit confirm st
      = WindowConfirm (confirmationSummary (closureOf st))
        :: (if confirm (confirmationSummary (closureOf st))
            then [SubmitAttempt id
                    (buildResponses (answers st) (questionsOf st))]
            else []))
  /\ (forall (st : state) (t0 : timer) (cl : closure) (t : timer),
        startTimer st = Some (t0, cl) ->
        running t = true -> remaining t <= 1 ->
        exists id : string,
          activeId (attemptId st) = Some id
          /\ tick confirm cl t
             = (stopped,
                ClearInterval
                :: WindowConfirm (confirmationSummary (closureOf st))
                :: (if confirm (confirmationSummary (closureOf st))
                    then [SubmitAttempt id
                            (buildResponses (answers st) (questionsOf st))]
                    else []))).
Proof.
  split.
  - intros st id Hid. unfold clickSubmit.
    by rewrite (handleSubmit_active confirm (closureOf st) id).
  - intros st t0 cl t Hstart Hrun Hle.
    destruct (startTimer_Some _ _ _ Hstart) as (_ & -> & _ & id & Hid).
    exists id. split; [done|].
    rewrite tick_expiry by done.
    by rewrite (handleSubmit_active confirm (closureOf st) id).
Qed.

(** The last second of the sample attempt, with an exam taker who
    confirms. *)
Lemma submission_asks_for_confirmation_witness :
  exists id : string,
    activeId (attemptId (sampleState 1)) = Some id
    /\ tick accepts sampleClosure {| remaining := 1; running := true |}
       = (stopped,
          [ClearInterval;
           WindowConfirm (confirmationSummary sampleClosure);
           SubmitAttempt id
             [ {| questionId := "q1"; selectedOptions := [JNum 2];
                  essayAnswer := None; timeSpent := 0 |} ]]).
Proof.
  destruct (submission_asks_for_confirmation accepts) as [_ Htimer].
  apply (Htimer (sampleState 1) {| remaining := 1; running := true |}
           sampleClosure {| remaining := 1; running := true |}).
  - reflexivity.
  - reflexivity.
  - simpl. lia.
Defined.

(** C1 as the claim words it fails for the countdown: when the time of
    the sample attempt runs out the dialog is shown, and with an exam
    taker who cancels it no submit request is made at all. *)
Lemma timer_expiry_is_not_unconditional :
  startTimer (sampleState 1)
  = Some ({| remaining := 1; running := true |}, sampleClosure)
  /\ tick declines sampleClosure {| remaining := 1; running := true |}
     = (stopped,
        [ClearInterval; WindowConfirm (confirmationSummary sampleClosure)])
  /\ existsb is_confirm
       (snd (tick declines sampleClosure
               {| remaining := 1; running := true |})) = true
  /\ existsb is_submit
       (snd (tick declines sampleClosure
               {| remaining := 1; running := true |})) = false.
Proof. repeat split. Qed.





(** C2 as the claim words it fails with an exam taker who cancels the
    dialog: the attempt of one minute reaches 0 after 60 ticks, the
    interval is cleared and the dialog shown, and no submission is made,
    then or later. *)
Lemma countdown_ends_without_submission :
  startTimer (fst (onStartSuccess sampleStart initialState))
  = Some ({| remaining := 60; running := true |},
          closureOf (fst (onStartSuccess sampleStart initialState)))
  /\ ticks declines (closureOf (fst (onStartSuccess sampleStart initialState)))
       60 {| remaining := 60; running := true |}
     = (stopped,
        [ClearInterval;
         WindowConfirm
           (confirmationSummary
              (closureOf (fst (onStartSuccess sampleStart initialState))))])
  /\ existsb is_submit
       (snd (ticks declines
               (closureOf (fst (onStartSuccess sampleStart initialState)))
               60 {| remaining := 60; running := true |})) = false
  /\ existsb is_submit
       (snd (ticks declines
               (closureOf (fst (onStartSuccess sampleStart initialState)))
               600 {| remaining := 60; running := true |})) = false.
Proof. repeat split; vm_compute; reflexivity. Qed.

(** *** Starting the attempt *)

Lemma initialTimeLeft_cases (duration : optional Z) :
  initialTimeLeft duration
  = match duration with
    | Defined minutes => if minutes =? 0 then 3600 else minutes * 60
    | _ => 3600
    end.
Proof.
  destruct duration as [| |minutes]; try reflexivity.
  unfold initialTimeLeft. simpl.
  destruct (Z.eqb_spec minutes 0) as [->|Hne]; [reflexivity|].
  by destruct (Z.eqb_spec (minutes * 60) 0); [lia|].
Qed.

(** C3, as the component has it: after a successful start the countdown
    is the duration times 60 when the response has a duration other than
    0, and 3600 when the duration is missing, [null] or 0; so it is 3600
    exactly when the duration is missing, [null], 0 or 60. *)
Theorem start_attempt_sets_countdown (data : start_response) (st : state) :
  timeLeft (fst (onStartSuccess data st))
  = match sr_duration data with
    | Defined minutes => if minutes =? 0 then 3600 else minutes * 60
    | _ => 3600
    end
  /\ (timeLeft (fst (onStartSuccess data st)) = 3600 <->
      sr_duration data = Undefined \/ sr_duration data = Null
      \/ sr_duration data = Defined 0 \/ sr_duration data = Defined 60).
Proof.
  simpl. rewrite initialTimeLeft_cases. split; [done|].
  destruct (sr_duration data) as [| |minutes]; [naive_solver..|].
  destruct (Z.eqb_spec minutes 0) as [->|Hne]; [naive_solver|].
  split.
  - intros H. assert (minutes = 60) as -> by lia. naive_solver.
  - intros [?|[?|[[= ?]|[= ?]]]]; try done; lia.
Qed.

(** C3 as the claim words it fails on a duration of 0 minutes: the
    field is there, and the countdown starts at 3600, not at 0. *)
Lemma zero_duration_starts_at_3600 :
  timeLeft
    (fst (onStartSuccess
            {| sr_attemptId := Defined "attempt-1";
               sr_duration := Defined 0;
               sr_questions := Undefined |}
            initialState))
  = 3600
  /\ 0 * 60 <> 3600.
Proof. split; [reflexivity|lia]. Qed.

(** While the exam says the attempts are used up, the effect never
    starts an attempt. *)
Lemma no_start_when_exceeded (st : state) (info : attempts_info) :
  exam_attemptsInfo (examOf st) = Defined info ->
  truthyFlag (canTakeExam info) = false ->
  existsb is_start (attemptEffect st) = false.
Proof.
  intros Hinfo Hcan. unfold attemptEffect. rewrite Hinfo, Hcan.
  destruct (activeId (exam_id (examOf st))); [|done].
  by destruct (truthyId (attemptId st)).
Qed.

(** C6: once the fetched exam (with an id, and no attempt yet) reports
    [canTakeExam] false, the effect issues no start-attempt request; it
    shows the toast and schedules, 3000 ms later, the navigation to
    [/student/tests]; and the component renders the attempts-exceeded
    screen. *)
Theorem exceeded_attempts_redirect (response : exam_data) (st : state)
    (e : exam) (examId : string) (info : attempts_info) :
  ed_exam response = Defined e ->
  activeId (exam_id e) = Some examId ->
  exam_attemptsInfo e = Defined info ->
  truthyFlag (canTakeExam info) = false ->
  truthyId (attemptId st) = false ->
  attemptEffect (onExamLoaded response st)
  = [ToastError (exceededMessage info) (Some 5000);
     SetTimeout NavigateToTests 3000]
  /\ existsb is_network_call (attemptEffect (onExamLoaded response st)) = false
  /\ runCallback NavigateToTests (onExamLoaded response st)
     = [Navigate "/student/tests"]
  /\ (examError st = None ->
      render (onExamLoaded response st) = ExceededView).
Proof.
  intros He Hid Hinfo Hcan Hattempt.
  assert (Heff : attemptEffect (onExamLoaded response st)
                 = [ToastError (exceededMessage info) (Some 5000);
                    SetTimeout NavigateToTests 3000]).
  { unfold attemptEffect, examOf. simpl.
    by rewrite He, Hid, Hattempt, Hinfo, Hcan. }
  split; [done|]. split; [by rewrite Heff|]. split; [done|].
  intros Herr. unfold render, examOf. simpl.
  by rewrite Herr, He, Hinfo, Hcan.
Qed.

Lemma exceeded_attempts_redirect_witness :
  attemptEffect
    (onExamLoaded
       {| ed_exam :=
            Defined {| exam_id := Defined "exam-7";
                       exam_attemptsInfo :=
                         Defined {| canTakeExam := Defined false;
                                    attemptsUsed := Defined 3;
                                    attemptsAllowed := Defined 3 |};
                       exam_questions := Undefined |};
          ed_questions := Undefined |}
       initialState)
  = [ToastError
       "You have used all 3/3 attempts for this exam. No more attempts allowed."
       (Some 5000);
     SetTimeout NavigateToTests 3000].
Proof.
  refine (proj1 (exceeded_attempts_redirect _ initialState
                   {| exam_id := Defined "exam-7";
                      exam_attemptsInfo :=
                        Defined {| canTakeExam := Defined false;
                                   attemptsUsed := Defined 3;
                                   attemptsAllowed := Defined 3 |};
                      exam_questions := Undefined |}
                   "exam-7"
                   {| canTakeExam := Defined false;
                      attemptsUsed := Defined 3;
                      attemptsAllowed := Defined 3 |}
                   _ _ _ _ _)); reflexivity.
Defined.

(** *** The submitted responses *)

Lemma toResponse_questionId (questions : list question)
    (entry : string * jsval) :
  questionId (toResponse questions entry) = entry.1.
Proof.
  destruct entry as [id answer]. unfold toResponse.
  by destruct (isEssayLike (findQuestion questions id)).
Qed.

Lemma buildResponses_ids (answers : gmap string jsval)
    (questions : list question) :
  questionId <$> buildResponses answers questions = (map_to_list answers).*1.
Proof.
  unfold buildResponses. rewrite <- list_fmap_compose.
  apply list_fmap_ext. intros i entry _. apply toResponse_questionId.
Qed.






(** The spec's example: [answers = {q1: 2}] with [q1] a multiple-choice
    and [q2] an essay question. *)
Lemma responses_of_sample_answers :
  buildResponses sampleAnswers sampleQuestions
  = [ {| questionId := "q1"; selectedOptions := [JNum 2];
         essayAnswer := None; timeSpent := 0 |} ].
Proof. reflexivity. Qed.


(** C4 as the claim words it fails on an essay question whose id is a
    number: its answer is stored under the key ["2"], which is not
    strictly equal to the id 2, so no question is found for it and the
    essay is sent as a selected option, without [essayAnswer]. *)
Lemma numbered_essay_is_sent_as_option :
  answers (fst (recordAnswer numberedEssay (TypeText "An essay.") initialState))
  = <["2" := JStr "An essay."]> ∅
  /\ findQuestion [numberedEssay] "2" = None
  /\ buildResponses
       (answers (fst (recordAnswer numberedEssay (TypeText "An essay.")
                        initialState)))
       [numberedEssay]
     = [ {| questionId := "2"; selectedOptions := [JStr "An essay."];
            essayAnswer := None; timeSpent := 0 |} ]
  /\ {| questionId := "2"; selectedOptions := [];
        essayAnswer := Some (JStr "An essay."); timeSpent := 0 |}
     ∉ buildResponses
         (answers (fst (recordAnswer numberedEssay (TypeText "An essay.")
                          initialState)))
         [numberedEssay].
Proof.
  split; [reflexivity|]. split; [reflexivity|].
  assert (H : buildResponses
       (answers (fst (recordAnswer numberedEssay (TypeText "An essay.")
                        initialState)))
       [numberedEssay]
     = [ {| questionId := "2"; selectedOptions := [JStr "An essay."];
            essayAnswer := None; timeSpent := 0 |} ]) by reflexivity.
  split; [exact H|]. rewrite H. intros Hin.
  apply list_elem_of_singleton in Hin. discriminate.
Qed.

(** *** Navigation *)

Lemma gridButtons_lookup (questions : list question) (button index : nat) :
  gridButtons questions !! button = Some index ->
  index = button /\ (button < length questions)%nat.
Proof.
  unfold gridButtons. rewrite list_lookup_imap.
  destruct (questions !! button) as [q|] eqn:Hq; simpl; [|discriminate].
  intros [= <-]. split; [done|]. by apply lookup_lt_Some in Hq.
Qed.

Lemma navigateQuestions_in_bounds (questions : list question) (click : navigation)
    (current : Z) :
  0 <= current <= Z.of_nat (length questions) - 1 ->
  0 <= navigateQuestions questions click current <= Z.of_nat (length questions) - 1.
Proof.
  intros Hb. destruct click as [| |button]; simpl.
  - unfold previousQuestion. lia.
  - unfold nextQuestion. lia.
  - destruct (gridButtons questions !! button) as [index|] eqn:Hg; [|done].
    apply gridButtons_lookup in Hg as [-> Hlt]. lia.
Qed.

(** C8: with at least one question, an index within
    [0 .. questions.length - 1] stays there under every click and every
    sequence of clicks; Previous gives [max(0, index - 1)], Next gives
    [min(length - 1, index + 1)], and every button of the grid leads to
    the index of a question of the list. *)
Theorem navigation_keeps_index_in_bounds (questions : list question)
    (current : Z) :
  questions <> [] ->
  0 <= current <= Z.of_nat (length questions) - 1 ->
  (forall click : navigation,
      0 <= navigateQuestions questions click current
        <= Z.of_nat (length questions) - 1)
  /\ (forall clicks : list navigation,
        0 <= foldl (fun index click => navigateQuestions questions click index)
                   current clicks
          <= Z.of_nat (length questions) - 1)
  /\ navigateQuestions questions ClickPrevious current = Z.max 0 (current - 1)
  /\ navigateQuestions questions ClickNext current
     = Z.min (Z.of_nat (length questions) - 1) (current + 1)
  /\ (forall button index : nat,
        gridButtons questions !! button = Some index ->
        navigateQuestions questions (ClickGrid button) current = Z.of_nat index
        /\ is_Some (questions !! index)).
Proof.
  intros _ Hb. split; [|split; [|split; [|split]]].
  - intros click. by apply navigateQuestions_in_bounds.
  - intros clicks. revert current Hb.
    induction clicks as [|click clicks IH]; intros current Hb; [done|].
    simpl. apply IH. by apply navigateQuestions_in_bounds.
  - reflexivity.
  - reflexivity.
  - intros button index Hg. simpl. rewrite Hg. split; [done|].
    apply gridButtons_lookup in Hg as [-> Hlt]. by apply lookup_lt_is_Some.
Qed.

(** On the two sample questions, starting from the first: Next twice
    stays on the second, Previous twice after a jump ends on the
    first. *)
Lemma navigation_keeps_index_in_bounds_witness :
  navigateQuestions sampleQuestions ClickNext (navigateQuestions sampleQuestions ClickNext 0) = 1
  /\ 0 <= foldl (fun index click => navigateQuestions sampleQuestions click index) 0
            [ClickNext; ClickGrid 1; ClickGrid 5; ClickPrevious; ClickPrevious]
       <= 1.
Proof.
  split; [reflexivity|].
  refine (proj1 (proj2 (navigation_keeps_index_in_bounds sampleQuestions 0 _ _))
            [ClickNext; ClickGrid 1; ClickGrid 5; ClickPrevious; ClickPrevious]).
  - discriminate.
  - simpl. lia.
Defined.

(** *** Recording answers *)

Lemma handleBlankChange_other (questionId : ident) (index : nat)
    (value : string) (st : state) (other : string) :
  other <> keyOf questionId ->
  answers (fst (handleBlankChange questionId index value st)) !! other
  = answers st !! other.
Proof.
  intros Hne. unfold handleBlankChange.
  destruct (answers st !! keyOf questionId) as [v|];
    [destruct (truthy v) eqn:Hv; [destruct v|]|];
    simpl; try done; by rewrite lookup_insert_ne.
Qed.

Lemma handleBlankChange_effects (questionId : ident) (index : nat)
    (value : string) (st : state) :
  existsb is_network_call (snd (handleBlankChange questionId index value st))
  = false.
Proof.
  unfold handleBlankChange.
  destruct (answers st !! keyOf questionId) as [v|];
    [destruct (truthy v); [destruct v|]|]; done.
Qed.

Lemma handleBlankChange_frame (questionId : ident) (index : nat)
    (value : string) (st : state) :
  let st' := fst (handleBlankChange questionId index value st) in
  currentQuestion st' = currentQuestion st /\ timeLeft st' = timeLeft st
  /\ isSubmitted st' = isSubmitted st /\ attemptId st' = attemptId st
  /\ examData st' = examData st.
Proof.
  unfold handleBlankChange.
  destruct (answers st !! keyOf questionId) as [v|];
    [destruct (truthy v); [destruct v|]|]; done.
Qed.

(** C9: recording an answer for [q], through an option, a text area or
    a blank, leaves the stored answer of every question with another id
    as it was, touches no other cell of the state, and makes no request;
    [handleAnswerSelect] stores the value it is given under [q]'s id.
    (The answers are stored under keys; the key of an id is the id
    itself, a number being written in decimal.) *)
Theorem recording_an_answer_is_local (q : question) (input : answer_input)
    (st : state) (other : string) :
  other <> keyOf (q_id q) ->
  answers (fst (recordAnswer q input st)) !! other = answers st !! other
  /\ existsb is_network_call (snd (recordAnswer q input st)) = false
  /\ currentQuestion (fst (recordAnswer q input st)) = currentQuestion st
  /\ timeLeft (fst (recordAnswer q input st)) = timeLeft st
  /\ isSubmitted (fst (recordAnswer q input st)) = isSubmitted st
  /\ attemptId (fst (recordAnswer q input st)) = attemptId st
  /\ examData (fst (recordAnswer q input st)) = examData st
  /\ (forall value : jsval,
        answers (fst (handleAnswerSelect (q_id q) value st)) !! other
        = answers st !! other
        /\ answers (fst (handleAnswerSelect (q_id q) value st))
             !! keyOf (q_id q)
           = Some value
        /\ snd (handleAnswerSelect (q_id q) value st) = []).
Proof.
  intros Hne. destruct input as [index|value|index value]; simpl.
  - rewrite lookup_insert_ne by done. repeat split; try done.
    + by rewrite lookup_insert_ne.
    + by rewrite lookup_insert_eq.
  - rewrite lookup_insert_ne by done. repeat split; try done.
    + by rewrite lookup_insert_ne.
    + by rewrite lookup_insert_eq.
  - rewrite handleBlankChange_other, handleBlankChange_effects by done.
    destruct (handleBlankChange_frame (q_id q) index value st)
      as (? & ? & ? & ? & ?).
    repeat split; try done.
    + by rewrite lookup_insert_ne.
    + by rewrite lookup_insert_eq.
Qed.

(** Filling the third blank of a question [q3] keeps the answer to
    [q1]. *)
Lemma recording_an_answer_is_local_witness :
  answers
    (fst (recordAnswer (sampleQuestion "q3" "FILL_IN_THE_BLANK" (Defined sampleOptions))
            (TypeBlank 2 "x") (sampleState 60))) !! "q1"
  = Some (JNum 2)
  /\ answers
       (fst (recordAnswer (sampleQuestion "q3" "FILL_IN_THE_BLANK" (Defined sampleOptions))
               (TypeBlank 2 "x") (sampleState 60))) !! "q3"
     = Some (JArr [JUndefined; JUndefined; JStr "x"]).
Proof.
  split; [|reflexivity].
  rewrite (proj1 (recording_an_answer_is_local
                    (sampleQuestion "q3" "FILL_IN_THE_BLANK" (Defined sampleOptions))
                    (TypeBlank 2 "x") (sampleState 60) "q1" ltac:(discriminate))).
  reflexivity.
Defined.

(** *** After the submission *)

(** C10, as the component has it: after a successful submission whose
    response has a non-empty attempt id, the function scheduled 3000 ms
    later navigates to the results route of that id, whatever attempt id
    the state holds. *)
Theorem post_submit_navigates_to_server_attempt (data : submit_response)
    (st st' : state) (id : string) :
  activeId (sub_attemptId data) = Some id ->
  isSubmitted (fst (onSubmitSuccess data st)) = true
  /\ SetTimeout (PostSubmit data) 3000 ∈ snd (onSubmitSuccess data st)
  /\ runCallback (PostSubmit data) st' = [Navigate ("/exam/results/" +:+ id)].
Proof.
  intros Hid. split; [done|]. split.
  - unfold onSubmitSuccess. simpl. rewrite !elem_of_cons, elem_of_app.
    right. right. apply list_elem_of_singleton. reflexivity.
  - simpl. unfold postSubmitTimeout. by rewrite Hid.
Qed.

Lemma post_submit_navigates_to_server_attempt_witness :
  runCallback
    (PostSubmit {| sub_attemptId := Defined "attempt-9";
                   sub_results := Undefined |})
    (sampleState 0)
  = [Navigate "/exam/results/attempt-9"].
Proof.
  refine (proj2 (proj2 (post_submit_navigates_to_server_attempt
                          {| sub_attemptId := Defined "attempt-9";
                             sub_results := Undefined |}
                          (sampleState 0) (sampleState 0) "attempt-9" _))).
  reflexivity.
Defined.

(** C10 as the claim words it fails on an attempt id that is not null
    but empty: the scheduled function then reads its own constant before
    it has a value, and no navigation takes place. *)
Lemma empty_attempt_id_is_not_navigated_to :
  runCallback
    (PostSubmit {| sub_attemptId := Defined ""; sub_results := Undefined |})
    (sampleState 0)
  = [Uncaught (ReferenceError "Cannot access 'attemptId' before initialization")]
  /\ Navigate "/exam/results/"
     ∉ runCallback
         (PostSubmit {| sub_attemptId := Defined ""; sub_results := Undefined |})
         (sampleState 0).
Proof.
  split; [reflexivity|]. simpl. unfold postSubmitTimeout. simpl.
  intros H. apply list_elem_of_singleton in H. discriminate.
Qed.

End ExamInterfaceSpec.

Module ExamScreenSpec.
Import JS ExamInterface ExamScreen.

(** *** The clock *)

Lemma append_inj_length (x x' y y' : string) :
  String.length x = String.length x' ->
  x +:+ y = x' +:+ y' -> x = x' /\ y = y'.
Proof.
  revert x'. induction x as [|c x IH]; intros [|c' x'] Hlen H;
    simpl in *; try discriminate.
  - done.
  - injection Hlen as Hlen. injection H as -> H.
    destruct (IH x' Hlen H) as [-> ->]. done.
Qed.

Lemma length_append (x y : string) :
  String.length (x +:+ y) = (String.length x + String.length y)%nat.
Proof. induction x as [|c x IH]; simpl; [done|]. by rewrite IH. Qed.

Lemma colon_inj (x y : string) : ":" +:+ x = ":" +:+ y -> x = y.
Proof. intros H. by injection H. Qed.

Lemma below_100 (P : Z -> Prop) :
  (forall k : nat, (k < 100)%nat -> P (Z.of_nat k)) ->
  forall n : Z, 0 <= n < 100 -> P n.
Proof.
  intros H n Hn. rewrite <- (Z2Nat.id n) by lia. apply H. lia.
Qed.

Lemma padStart2_length (n : Z) :
  0 <= n < 100 -> String.length (padStart2 (pretty n)) = 2%nat.
Proof.
  revert n. apply below_100. intros k Hk.
  do 100 (destruct k as [|k]; [reflexivity|]). lia.
Qed.

Lemma padStart2_table :
  forallb (fun i =>
    forallb (fun j =>
      implb (String.eqb (padStart2 (pretty (Z.of_nat i)))
                        (padStart2 (pretty (Z.of_nat j))))
            (i =? j)%nat)
      (seq 0 100))
    (seq 0 100) = true.
Proof. vm_compute. reflexivity. Qed.

Lemma padStart2_inj (a b : Z) :
  0 <= a < 100 -> 0 <= b < 100 ->
  padStart2 (pretty a) = padStart2 (pretty b) -> a = b.
Proof.
  intros Ha Hb Heq.
  pose proof padStart2_table as Htable.
  rewrite forallb_forall in Htable.
  specialize (Htable (Z.to_nat a)). rewrite forallb_forall in Htable.
  specialize (Htable ltac:(apply in_seq; lia) (Z.to_nat b) ltac:(apply in_seq; lia)).
  rewrite !Z2Nat.id in Htable by lia. rewrite Heq in Htable.
  rewrite String.eqb_refl in Htable. simpl in Htable.
  apply Nat.eqb_eq in Htable. lia.
Qed.

(** For a time that is not negative the clock shows hours, minutes
    and seconds, each padded to two digits, with minutes and seconds
    below 60, and the three add up to the time. *)
Theorem format_time_parts (seconds : Z) :
  0 <= seconds ->
  exists h m s : Z,
    formatTime seconds
    = padStart2 (pretty h) +:+ ":" +:+ padStart2 (pretty m)
      +:+ ":" +:+ padStart2 (pretty s)
    /\ 0 <= h /\ 0 <= m < 60 /\ 0 <= s < 60
    /\ seconds = h * 3600 + m * 60 + s.
Proof.
  intros Hs.
  exists (seconds `div` 3600), (Z.rem seconds 3600 `div` 60), (Z.rem seconds 60).
  split; [reflexivity|].
  rewrite !Z.rem_mod_nonneg by lia.
  repeat split; try (Z.to_euclidean_division_equations; lia).
Qed.

(** Below a hundred hours the clock is eight characters wide, and two
    different times never look the same. *)
Theorem format_time_display (a b : Z) :
  0 <= a < 360000 -> 0 <= b < 360000 ->
  String.length (formatTime a) = 8%nat
  /\ (formatTime a = formatTime b -> a = b).
Proof.
  intros Ha Hb. unfold formatTime.
  rewrite !Z.rem_mod_nonneg by lia.
  assert (Hparts : forall x : Z, 0 <= x < 360000 ->
            0 <= x `div` 3600 < 100 /\ 0 <= (x `mod` 3600) `div` 60 < 100
            /\ 0 <= x `mod` 60 < 100)
    by (intros x Hx; Z.to_euclidean_division_equations; lia).
  destruct (Hparts a Ha) as (Hha & Hma & Hsa).
  destruct (Hparts b Hb) as (Hhb & Hmb & Hsb).
  split.
  - rewrite !length_append, !padStart2_length by done. reflexivity.
  - intros Heq.
    apply append_inj_length in Heq as [Hh Heq];
      [|by rewrite !padStart2_length].
    apply colon_inj in Heq.
    apply append_inj_length in Heq as [Hm Heq];
      [|by rewrite !padStart2_length].
    apply colon_inj in Heq.
    apply padStart2_inj in Hh; [|done..].
    apply padStart2_inj in Hm; [|done..].
    apply padStart2_inj in Heq; [|done..].
    Z.to_euclidean_division_equations; lia.
Qed.

Lemma format_time_parts_witness :
  exists h m s : Z,
    formatTime 3725
    = padStart2 (pretty h) +:+ ":" +:+ padStart2 (pretty m)
      +:+ ":" +:+ padStart2 (pretty s)
    /\ 0 <= h /\ 0 <= m < 60 /\ 0 <= s < 60
    /\ 3725 = h * 3600 + m * 60 + s.
Proof. apply (format_time_parts 3725). lia. Defined.

Lemma format_time_display_witness :
  String.length (formatTime 59) = 8%nat
  /\ (formatTime 59 = formatTime 60 -> 59 = 60).
Proof. apply (format_time_display 59 60); lia. Defined.

(** *** The countdown, whatever it starts from *)

Section CountdownTotal.
Variable confirm : string -> bool.
Variable cl : closure.

Lemma ticks_not_running (n : nat) (t : timer) :
  running t = false -> ticks confirm cl n t = (t, []).
Proof.
  intros Hrun. induction n as [|n IH]; [done|].
  cbn [ticks]. unfold tick. rewrite Hrun. by rewrite IH.
Qed.

Lemma ticks_expired (n : nat) : forall t : timer,
  running t = true -> (0 < n)%nat -> remaining t <= Z.of_nat n ->
  ticks confirm cl n t = (stopped, ClearInterval :: handleSubmit confirm cl).
Proof.
  induction n as [|n IH]; intros t Hrun Hn Hle; [lia|].
  cbn [ticks]. destruct (Z.le_gt_cases (remaining t) 1) as [H1|H1].
  - rewrite ExamInterfaceSpec.tick_expiry by done.
    rewrite ExamInterfaceSpec.ticks_stopped. by rewrite app_nil_r.
  - rewrite ExamInterfaceSpec.tick_decrement by (done || lia).
    rewrite IH; [done|done|lia|simpl; lia].
Qed.

(** Every run of the interval, from any clock value (also 0 or a
    negative one): a cleared interval does nothing; a running one counts
    down by one per tick without any effect while the clock stays above
    the number of ticks, and otherwise ends at 0 with the interval
    cleared and [handleSubmit] called exactly once - at the first tick
    when the clock started at 1 or below. *)
Theorem countdown_every_run (n : nat) (t : timer) :
  (running t = false /\ ticks confirm cl n t = (t, []))
  \/ (running t = true
      /\ (n = 0%nat \/ Z.of_nat n < remaining t)
      /\ ticks confirm cl n t
         = ({| remaining := remaining t - Z.of_nat n; running := true |}, []))
  \/ (running t = true
      /\ (0 < n)%nat /\ remaining t <= Z.of_nat n
      /\ ticks confirm cl n t
         = (stopped, ClearInterval :: handleSubmit confirm cl)).
Proof.
  destruct (running t) eqn:Hrun.
  - right. destruct n as [|n].
    + left. split; [done|]. split; [by left|].
      simpl. rewrite Z.sub_0_r. destruct t; simpl in *; by subst.
    + destruct (Z.lt_ge_cases (Z.of_nat (S n)) (remaining t)) as [Hlt|Hge].
      * left. split; [done|]. split; [by right|].
        by apply ExamInterfaceSpec.ticks_before_expiry.
      * right. split; [done|]. split; [lia|]. split; [done|].
        apply ticks_expired; [done|lia|done].
  - left. split; [done|]. by apply ticks_not_running.
Qed.

(** [handleSubmit] reaches the backend only with an attempt id and the
    exam taker's consent, with the responses built from the answers it
    sees, and never more than once; without an attempt id it shows the
    toast and not even the dialog. *)
Theorem handle_submit_requests :
  (activeId (cl_attemptId cl) = None ->
   handleSubmit confirm cl = [ToastError "No active exam attempt" None])
  /\ (forall (a : string) (rs : list response),
        SubmitAttempt a rs ∈ handleSubmit confirm cl
        <-> activeId (cl_attemptId cl) = Some a
            /\ confirm (confirmationSummary cl) = true
            /\ rs = buildResponses (cl_answers cl) (cl_questions cl))
  /\ (length (filter (fun e => is_network_call e = true)
                     (handleSubmit confirm cl)) <= 1)%nat
  /\ existsb is_start (handleSubmit confirm cl) = false.
Proof.
  unfold handleSubmit.
  destruct (activeId (cl_attemptId cl)) as [id|] eqn:Hid.
  - split; [done|]. split; [|split].
    + intros a rs. destruct (confirm (confirmationSummary cl)).
      * rewrite !elem_of_cons. split.
        -- intros [H|[H|H]]; [discriminate| |by apply elem_of_nil in H].
           by injection H as -> ->.
        -- intros ([= ->] & _ & ->). right. by left.
      * rewrite elem_of_cons. split.
        -- intros [H|H]; [discriminate|by apply elem_of_nil in H].
        -- by intros (_ & ? & _).
    + destruct (confirm (confirmationSummary cl)); simpl; lia.
    + by destruct (confirm (confirmationSummary cl)).
  - split; [done|]. split; [|split].
    + intros a rs. rewrite elem_of_cons. split.
      * intros [H|H]; [discriminate|by apply elem_of_nil in H].
      * by intros (? & _).
    + simpl. lia.
    + done.
Qed.

End CountdownTotal.

(** *** Starting and finishing the attempt *)

(** The effect asks for an attempt exactly when the exam has an id, no
    attempt id is stored and the exam does not say that the attempts
    are used up; once a start has stored an attempt id it asks for
    nothing. *)
Theorem start_attempt_guard (st : state) :
  (forall examId : string,
      attemptEffect st = [StartAttempt examId]
      <-> activeId (exam_id (examOf st)) = Some examId
          /\ truthyId (attemptId st) = false
          /\ match exam_attemptsInfo (examOf st) with
             | Defined attemptsInfo =>
                 truthyFlag (canTakeExam attemptsInfo) = true
             | _ => True
             end)
  /\ (forall (data : start_response) (id : string),
        activeId (sr_attemptId data) = Some id ->
        attemptEffect (fst (onStartSuccess data st)) = []).
Proof.
  split.
  - intros examId. unfold attemptEffect.
    destruct (activeId (exam_id (examOf st))) as [e|];
      [|split; [discriminate|by intros [? _]]].
    destruct (truthyId (attemptId st)); simpl;
      [split; [discriminate|by intros (_ & ? & _)]|].
    assert (Hstart : [StartAttempt e] = [StartAttempt examId]
                     <-> Some e = Some examId /\ false = false /\ True).
    { split; [by intros [= ->]|by intros ([= ->] & _)]. }
    destruct (exam_attemptsInfo (examOf st)) as [| |info]; [done..|].
    destruct (truthyFlag (canTakeExam info)); simpl.
    + split; [by intros [= ->]|by intros ([= ->] & _)].
    + split; [discriminate|by intros (_ & _ & ?)].
  - intros data id Hid. unfold attemptEffect. simpl.
    assert (Htruthy : truthyId (sr_attemptId data) = true).
    { unfold activeId in Hid. unfold truthyId.
      destruct (sr_attemptId data) as [| |s]; try discriminate.
      by destruct (String.eqb s ""). }
    rewrite Htruthy. simpl.
    by destruct (activeId (exam_id (examOf _))).
Qed.

Lemma questionsOf_onStartSuccess (data : start_response) (st : state) :
  questionsOf (fst (onStartSuccess data st))
  = match sr_questions data with
    | Defined (q :: l) => q :: l
    | _ => questionsOf st
    end.
Proof.
  unfold questionsOf, examOf. simpl.
  destruct (sr_questions data) as [| |[|q l]]; done.
Qed.

(** A successful start replaces the questions by the ones it returns
    when it returns at least one, and keeps the fetched ones otherwise;
    the answers given so far and the current index stay, so that an
    index beyond a shorter list shows the preparing screen instead of a
    question. *)
Theorem start_success_questions (data : start_response) (st : state) :
  questionsOf (fst (onStartSuccess data st))
  = match sr_questions data with
    | Defined (q :: l) => q :: l
    | _ => questionsOf st
    end
  /\ answers (fst (onStartSuccess data st)) = answers st
  /\ currentQuestion (fst (onStartSuccess data st)) = currentQuestion st
  /\ examOf (fst (onStartSuccess data st)) = examOf st
  /\ (inProgress st ->
      (length (questionsOf (fst (onStartSuccess data st)))
       <= Z.to_nat (currentQuestion st))%nat ->
      render (fst (onStartSuccess data st)) = PreparingView).
Proof.
  split; [apply questionsOf_onStartSuccess|].
  split; [done|]. split; [done|].
  assert (Hexam : examOf (fst (onStartSuccess data st)) = examOf st).
  { unfold examOf. simpl.
    by destruct (sr_questions data) as [| |[|q l]]. }
  split; [done|].
  intros (Herr & Hload & Hsub & Hinfo) Hlen.
  unfold render. rewrite Hexam.
  change (examError (fst (onStartSuccess data st))) with (examError st).
  change (examLoading (fst (onStartSuccess data st))) with (examLoading st).
  change (isSubmitted (fst (onStartSuccess data st))) with (isSubmitted st).
  change (currentQuestion (fst (onStartSuccess data st)))
    with (currentQuestion st).
  rewrite Herr, Hload, Hsub.
  assert (Hex : match exam_attemptsInfo (examOf st) with
                | Defined attemptsInfo =>
                    negb (truthyFlag (canTakeExam attemptsInfo))
                | _ => false
                end = false).
  { destruct (exam_attemptsInfo (examOf st)); [done..|]. by rewrite Hinfo. }
  rewrite Hex.
  destruct (0 <=? currentQuestion st); [|done].
  by rewrite (lookup_ge_None_2 _ _ Hlen).
Qed.

(** The sample exam on its second question, restarted with a single
    question. *)
Lemma start_success_questions_witness :
  render
    (fst (onStartSuccess
            {| sr_attemptId := Defined "attempt-1";
               sr_duration := Defined 1;
               sr_questions :=
                 Defined [ sampleQuestion "q9" "ESSAY" Undefined ] |}
            (setCurrentQuestion (fun _ => 1) (sampleState 60))))
  = PreparingView.
Proof.
  refine (proj2 (proj2 (proj2 (proj2
            (start_success_questions _ _)))) _ _).
  - repeat split.
  - simpl. lia.
Defined.

(** After a successful submission the countdown is not set up again,
    the submitted screen takes the place of the questions, the answers
    are kept and no request is made. *)
Theorem submit_success_ends_attempt (data : submit_response) (st : state) :
  startTimer (fst (onSubmitSuccess data st)) = None
  /\ answers (fst (onSubmitSuccess data st)) = answers st
  /\ existsb is_network_call (snd (onSubmitSuccess data st)) = false
  /\ (examError st = None -> examLoading st = false ->
      match exam_attemptsInfo (examOf st) with
      | Defined attemptsInfo => truthyFlag (canTakeExam attemptsInfo) = true
      | _ => True
      end ->
      render (fst (onSubmitSuccess data st)) = SubmittedView).
Proof.
  split; [|split; [done|split]].
  - unfold startTimer. simpl. by rewrite orb_true_r.
  - unfold onSubmitSuccess. simpl.
    by destruct (sub_results data).
  - intros Herr Hload Hinfo. unfold render, examOf in *. simpl.
    rewrite Herr, Hload.
    destruct (ed_exam (examData st)) as [| |e]; simpl in *; try done.
    destruct (exam_attemptsInfo e); [done..|]. by rewrite Hinfo.
Qed.

Lemma submit_success_ends_attempt_witness :
  render
    (fst (onSubmitSuccess
            {| sub_attemptId := Defined "attempt-1";
               sub_results := Undefined |}
            (sampleState 60)))
  = SubmittedView.
Proof.
  refine (proj2 (proj2 (proj2
            (submit_success_ends_attempt _ (sampleState 60)))) _ _ _);
    reflexivity.
Defined.

(** *** Answers *)

Lemma buildResponses_has (answers : gmap string jsval)
    (questions : list question) (id : string) :
  id ∈ (questionId <$> buildResponses answers questions)
  <-> is_Some (answers !! id).
Proof.
  rewrite ExamInterfaceSpec.buildResponses_ids, list_elem_of_fmap. split.
  - intros ([k v] & -> & Hin). apply elem_of_map_to_list in Hin. by exists v.
  - intros [v Hv]. exists (id, v). split; [done|].
    by apply elem_of_map_to_list.
Qed.

(** An answer chosen after the countdown was set up is part of a manual
    submission, but not of the one the countdown makes: the interval
    keeps the [handleSubmit] of the render that set it up, with the
    answers of that render. *)
Theorem late_answer_not_in_automatic_submission (st : state) (t : timer)
    (cl : closure) (id : ident) (value : jsval) :
  startTimer st = Some (t, cl) ->
  answers st !! keyOf id = None ->
  (exists (a : string) (rs : list response),
      clickSubmit accepts (fst (handleAnswerSelect id value st))
      = [WindowConfirm
           (confirmationSummary
              (closureOf (fst (handleAnswerSelect id value st))));
         SubmitAttempt a rs]
      /\ keyOf id ∈ (questionId <$> rs))
  /\ (forall t' : timer,
        running t' = true -> remaining t' <= 1 ->
        exists (a : string) (rs : list response),
          tick accepts cl t'
          = (stopped,
             [ClearInterval; WindowConfirm (confirmationSummary cl);
              SubmitAttempt a rs])
          /\ keyOf id ∉ (questionId <$> rs)).
Proof.
  intros Hstart Hnone.
  destruct (ExamInterfaceSpec.startTimer_Some _ _ _ Hstart)
    as (_ & -> & _ & a & Ha).
  split.
  - exists a, (buildResponses (<[keyOf id := value]> (answers st))
                 (questionsOf st)).
    split.
    + unfold clickSubmit.
      by rewrite (ExamInterfaceSpec.handleSubmit_active accepts _ a).
    + apply buildResponses_has. rewrite lookup_insert_eq. by eexists.
  - intros t' Hrun Hle.
    exists a, (buildResponses (answers st) (questionsOf st)). split.
    + rewrite ExamInterfaceSpec.tick_expiry by done.
      by rewrite (ExamInterfaceSpec.handleSubmit_active accepts _ a).
    + rewrite buildResponses_has. simpl. rewrite Hnone. by intros [? ?].
Qed.

Lemma late_answer_not_in_automatic_submission_witness :
  exists (a : string) (rs : list response),
    tick accepts sampleClosure {| remaining := 1; running := true |}
    = (stopped,
       [ClearInterval; WindowConfirm (confirmationSummary sampleClosure);
        SubmitAttempt a rs])
    /\ "q2" ∉ (questionId <$> rs).
Proof.
  apply (proj2 (late_answer_not_in_automatic_submission
                  (sampleState 1) {| remaining := 1; running := true |}
                  sampleClosure (IdStr "q2") (JStr "an essay")
                  eq_refl eq_refl)
           {| remaining := 1; running := true |}).
  - reflexivity.
  - simpl. lia.
Defined.

Lemma recordAnswer_dom (q : question) (input : answer_input) (st : state) :
  dom (answers st) ⊆ dom (answers (fst (recordAnswer q input st))).
Proof.
  destruct input as [index|value|index value]; simpl.
  - rewrite dom_insert. set_solver.
  - rewrite dom_insert. set_solver.
  - unfold handleBlankChange.
    destruct (answers st !! keyOf (q_id q)) as [v|];
      [destruct (truthy v); [destruct v|]|]; simpl;
      try done; rewrite dom_insert; set_solver.
Qed.

(** No input takes an answer away: whatever the exam taker does to the
    answers, every question that had one keeps one, so the number of
    answered questions never goes down; a text area that is emptied
    still counts as answered. *)
Theorem answers_are_never_removed (inputs : list (question * answer_input))
    (st : state) :
  dom (answers st) ⊆ dom (answers (recordAnswers inputs st))
  /\ (size (answers st) <= size (answers (recordAnswers inputs st)))%nat
  /\ (forall (q : question) (index : nat),
        answers (fst (recordAnswer q (ChooseOption index) st))
          !! keyOf (q_id q)
        = Some (JNum (Z.of_nat index)))
  /\ (forall (q : question) (value : string),
        answers (fst (recordAnswer q (TypeText value) st))
          !! keyOf (q_id q)
        = Some (JStr value)).
Proof.
  assert (Hdom : dom (answers st) ⊆ dom (answers (recordAnswers inputs st))).
  { unfold recordAnswers. revert st.
    induction inputs as [|[q input] inputs IH]; intros st; [done|].
    simpl. etrans; [apply (recordAnswer_dom q input)|apply IH]. }
  split; [done|]. split.
  - rewrite <- !size_dom. by apply subseteq_size.
  - split; intros q v; simpl; by rewrite lookup_insert_eq.
Qed.

Lemma assignIndex_spec (items : list jsval) (index : nat) (v : jsval) :
  assignIndex items index v !! index = Some v
  /\ length (assignIndex items index v) = Nat.max (length items) (S index)
  /\ (forall j : nat,
        j <> index -> (j < length items)%nat ->
        assignIndex items index v !! j = items !! j)
  /\ (forall j : nat,
        (length items <= j < index)%nat ->
        assignIndex items index v !! j = Some JUndefined).
Proof.
  unfold assignIndex. destruct (Nat.ltb_spec index (length items)) as [Hlt|Hge].
  - split; [by apply list_lookup_insert_eq|].
    split; [rewrite length_insert; lia|].
    split; [|intros j Hj; lia].
    intros j Hne _. by apply list_lookup_insert_ne.
  - split.
    { rewrite lookup_app_r by lia.
      rewrite lookup_app_r by (rewrite length_replicate; lia).
      rewrite length_replicate.
      by replace (index - length items - (index - length items))%nat
        with 0%nat by lia. }
    split.
    { rewrite !length_app, length_replicate. simpl. lia. }
    split.
    + intros j _ Hj. by rewrite lookup_app_l.
    + intros j Hj. rewrite lookup_app_r by lia.
      rewrite lookup_app_l by (rewrite length_replicate; lia).
      apply lookup_replicate_2. lia.
Qed.

(** Typing into blank [index] of a question: a first entry makes the
    list of blanks, with [undefined] before the one typed into; on an
    existing list the blank typed into holds the text, the list is as
    long as before or just long enough, the other blanks keep what they
    held, and blanks skipped over read [undefined]. *)
Theorem blank_input_fills_its_slot (id : ident) (index : nat)
    (value : string) (st : state) :
  (answers st !! keyOf id = None ->
   answers (fst (handleBlankChange id index value st)) !! keyOf id
   = Some (JArr (replicate index JUndefined ++ [JStr value])))
  /\ (forall items : list jsval,
        answers st !! keyOf id = Some (JArr items) ->
        exists items' : list jsval,
          answers (fst (handleBlankChange id index value st)) !! keyOf id
          = Some (JArr items')
          /\ items' !! index = Some (JStr value)
          /\ length items' = Nat.max (length items) (S index)
          /\ (forall j : nat,
                j <> index -> (j < length items)%nat ->
                items' !! j = items !! j)
          /\ (forall j : nat,
                (length items <= j < index)%nat ->
                items' !! j = Some JUndefined)).
Proof.
  unfold handleBlankChange. split.
  - intros ->. simpl. rewrite lookup_insert_eq.
    unfold assignIndex. simpl. by rewrite Nat.sub_0_r.
  - intros items ->. simpl. rewrite lookup_insert_eq.
    exists (assignIndex items index (JStr value)). split; [done|].
    apply assignIndex_spec.
Qed.

Lemma blank_input_fills_its_slot_witness :
  exists items' : list jsval,
    answers
      (fst (handleBlankChange (IdStr "q3") 3 "d"
              (fst (handleBlankChange (IdStr "q3") 0 "a" (sampleState 60)))))
      !! "q3"
    = Some (JArr items')
    /\ items' !! 3%nat = Some (JStr "d")
    /\ length items' = 4%nat
    /\ items' !! 0%nat = Some (JStr "a")
    /\ items' !! 1%nat = Some JUndefined.
Proof.
  destruct (proj2 (blank_input_fills_its_slot (IdStr "q3") 3 "d"
                     (fst (handleBlankChange (IdStr "q3") 0 "a"
                             (sampleState 60))))
              [JStr "a"] eq_refl)
    as (items' & H & H3 & Hlen & Hkeep & Hgap).
  exists items'. split; [exact H|]. split; [exact H3|].
  split; [exact Hlen|]. split.
  - rewrite (Hkeep 0%nat); [reflexivity|lia|simpl; lia].
  - apply Hgap. simpl. lia.
Defined.

(** *** What is on screen while the exam taker moves around *)

Lemma render_question (st : state) :
  inProgress st ->
  0 <= currentQuestion st <= Z.of_nat (length (questionsOf st)) - 1 ->
  exists q : question,
    questionsOf st !! Z.to_nat (currentQuestion st) = Some q
    /\ render st = match questionArea q with
                   | Ok _ => QuestionView q
                   | Throw e => Thrown e
                   end.
Proof.
  intros (Herr & Hload & Hsub & Hinfo) Hb. unfold render.
  rewrite Herr, Hload, Hsub.
  assert (Hex : match exam_attemptsInfo (examOf st) with
                | Defined attemptsInfo =>
                    negb (truthyFlag (canTakeExam attemptsInfo))
                | _ => false
                end = false).
  { destruct (exam_attemptsInfo (examOf st)); [done..|]. by rewrite Hinfo. }
  rewrite Hex.
  destruct (Z.leb_spec 0 (currentQuestion st)); [|lia].
  destruct (questionsOf st !! Z.to_nat (currentQuestion st)) as [q|] eqn:Hq.
  - by exists q.
  - apply lookup_ge_None in Hq. lia.
Qed.

Lemma clicks_in_bounds (clicks : list navigation) : forall st : state,
  0 <= currentQuestion st <= Z.of_nat (length (questionsOf st)) - 1 ->
  let st' := foldl (fun s click => clickNavigation click s) st clicks in
  inProgress st' = inProgress st
  /\ questionsOf st' = questionsOf st
  /\ 0 <= currentQuestion st' <= Z.of_nat (length (questionsOf st)) - 1.
Proof.
  induction clicks as [|click clicks IH]; intros st Hb; [done|].
  simpl. destruct (IH (clickNavigation click st)) as (Hin & Hqs & Hb').
  - simpl. by apply ExamInterfaceSpec.navigateQuestions_in_bounds.
  - by rewrite Hin, Hqs.
Qed.

(** Reading the [text] of options none of which is [null] or
    [undefined] goes through. *)
Lemma option_texts_read (options : list jsval) : forall k : nat,
  Forall (fun option => option <> JNull /\ option <> JUndefined) options ->
  exists texts : list jsval,
    map_indexed (fun option (_ : nat) => get option "text") k options
    = Ok texts.
Proof.
  induction options as [|o l IH]; intros k Hall; [by exists []|].
  apply Forall_cons in Hall as [[Hnull Hundef] Hall].
  destruct (IH (S k) Hall) as [texts Htexts]. simpl. rewrite Htexts.
  destruct o; try done; simpl; eauto.
Qed.

(** The essay and the short-answer branch of the question area throw
    once the images are through. *)
Lemma questionArea_text_question (q : question) :
  q_type q = "ESSAY" \/ q_type q = "SHORT_ANSWER" ->
  questionImages (q_images q) <> Ok [] \/
  questionArea q = Throw (ReferenceError "FiInfo is not defined").
Proof.
  intros Htype. unfold questionArea.
  destruct (questionImages (q_images q)) as [e|[|image images]] eqn:Himages;
    [by left| |by left].
  right. simpl. by destruct Htype as [-> | ->].
Qed.

(** While the exam is in progress and the index is within the list,
    every sequence of Previous, Next and grid clicks leaves the index on
    a question of the list, never on the preparing screen, and the
    component shows that question or throws what its question area
    throws.  It shows the question when the question is neither an essay
    nor a short-answer question and has its options, each with a text to
    read, and no image; on an essay or a short-answer question without
    images it throws the ReferenceError of [FiInfo]. *)
Theorem navigation_shows_the_question_or_throws (clicks : list navigation)
    (st : state) :
  inProgress st ->
  0 <= currentQuestion st <= Z.of_nat (length (questionsOf st)) - 1 ->
  exists q : question,
    q ∈ questionsOf st
    /\ questionsOf st
         !! Z.to_nat (currentQuestion
                        (foldl (fun s click => clickNavigation click s)
                               st clicks))
       = Some q
    /\ render (foldl (fun s click => clickNavigation click s) st clicks)
       = match questionArea q with
         | Ok _ => QuestionView q
         | Throw e => Thrown e
         end
    /\ (q_type q <> "ESSAY" -> q_type q <> "SHORT_ANSWER" ->
        q_images q = Undefined ->
        (exists options : list jsval,
            q_options q = Defined options
            /\ Forall (fun option => option <> JNull /\ option <> JUndefined)
                      options) ->
        render (foldl (fun s click => clickNavigation click s) st clicks)
        = QuestionView q)
    /\ (q_type q = "ESSAY" \/ q_type q = "SHORT_ANSWER" ->
        q_images q = Undefined ->
        render (foldl (fun s click => clickNavigation click s) st clicks)
        = Thrown (ReferenceError "FiInfo is not defined")).
Proof.
  intros Hin Hb.
  destruct (clicks_in_bounds clicks st Hb) as (Hin' & Hqs & Hb').
  destruct (render_question
              (foldl (fun s click => clickNavigation click s) st clicks))
    as (q & Hq & Hrender).
  { by rewrite Hin'. }
  { by rewrite Hqs. }
  rewrite Hqs in Hq. exists q.
  split; [by eapply list_elem_of_lookup_2|]. split; [done|].
  split; [done|]. split.
  - intros Hessay Hshort Himages (options & Hoptions & Htexts).
    rewrite Hrender. unfold questionArea. rewrite Himages, Hoptions. simpl.
    apply String.eqb_neq in Hessay, Hshort. rewrite Hessay, Hshort.
    destruct (option_texts_read options 0 Htexts) as [texts ->].
    by destruct (String.eqb (q_type q) "FILL_IN_THE_BLANK").
  - intros Htype Himages. rewrite Hrender.
    destruct (questionArea_text_question q Htype) as [Hno| ->]; [|done].
    by rewrite Himages in Hno.
Qed.

(** On the sample exam the clicks Next, Next, grid 7 end on the essay
    question, which throws; one Previous more ends on the multiple-choice
    question, which is shown. *)
Lemma navigation_shows_the_question_or_throws_witness :
  render (foldl (fun s click => clickNavigation click s) (sampleState 60)
            [ClickNext; ClickNext; ClickGrid 7])
  = Thrown (ReferenceError "FiInfo is not defined")
  /\ exists q : question,
       q ∈ questionsOf (sampleState 60)
       /\ render (foldl (fun s click => clickNavigation click s)
                    (sampleState 60)
                    [ClickNext; ClickNext; ClickGrid 7; ClickPrevious])
          = match questionArea q with
            | Ok _ => QuestionView q
            | Throw e => Thrown e
            end.
Proof.
  split; [reflexivity|].
  destruct (navigation_shows_the_question_or_throws
              [ClickNext; ClickNext; ClickGrid 7; ClickPrevious]
              (sampleState 60)) as (q & Hq & _ & Hrender & _).
  - repeat split.
  - simpl. lia.
  - exists q. split; [exact Hq|exact Hrender].
Defined.

End ExamScreenSpec.

(** ** The list of questions and the question form *)

Module QuestionFormSpec.
Import JS Questions QuestionForm.

(** *** Pages *)

Lemma pageButtons_lookup (p : pagination) (i : nat) (n : Z) :
  pageButtons p !! i = Some n <->
  (i < Z.to_nat (Z.min 5 (pages p)))%nat
  /\ n = Z.max 1 (Z.min (pages p - 4) (page p - 2)) + Z.of_nat i.
Proof.
  unfold pageButtons. rewrite list_lookup_fmap. split.
  - destruct (seq 0 (Z.to_nat (Z.min 5 (pages p))) !! i) as [k|] eqn:Hk;
      simpl; [|discriminate].
    apply lookup_seq in Hk as [-> Hlt]. intros [= <-]. by split.
  - intros [Hlt ->]. by rewrite (lookup_seq_lt _ _ _ Hlt).
Qed.

(** With the current page among the pages, there are as many page
    buttons as there are pages, five at most; their numbers are
    consecutive, none is below 1 or above the last page, and one of
    them is the current page. *)
Theorem page_buttons_window (p : pagination) :
  1 <= page p <= pages p ->
  length (pageButtons p) = Z.to_nat (Z.min 5 (pages p))
  /\ (forall (i : nat) (n : Z),
        pageButtons p !! i = Some n -> 1 <= n <= pages p)
  /\ (forall (i : nat) (n m : Z),
        pageButtons p !! i = Some n -> pageButtons p !! S i = Some m ->
        m = n + 1)
  /\ page p ∈ pageButtons p.
Proof.
  intros Hp. split; [|split; [|split]].
  - unfold pageButtons. by rewrite length_fmap, length_seq.
  - intros i n Hn. apply pageButtons_lookup in Hn as [Hi ->]. lia.
  - intros i n m Hn Hm.
    apply pageButtons_lookup in Hn as [_ ->].
    apply pageButtons_lookup in Hm as [_ ->]. lia.
  - apply list_elem_of_lookup.
    exists (Z.to_nat (page p - Z.max 1 (Z.min (pages p - 4) (page p - 2)))).
    apply pageButtons_lookup. lia.
Qed.

Lemma page_buttons_window_witness :
  pageButtons {| page := 9; limit := 20; total := 200; pages := 10 |}
  = [6; 7; 8; 9; 10]
  /\ 9 ∈ pageButtons {| page := 9; limit := 20; total := 200; pages := 10 |}.
Proof.
  split; [reflexivity|].
  apply (page_buttons_window
           {| page := 9; limit := 20; total := 200; pages := 10 |}).
  simpl. lia.
Defined.

(** With the current page among the pages, no click on the paging
    controls asks for a page below 1 or above the last one; choosing a
    page size goes back to page 1. *)
Theorem page_clicks_stay_in_range (p : pagination) (click : page_click)
    (st : paging) :
  1 <= page p <= pages p ->
  1 <= currentPage st <= pages p ->
  1 <= currentPage (clickPage p click st) <= pages p
  /\ (forall (choice : nat) (size : Z),
        pageSizes !! choice = Some size -> 1 < pages p ->
        clickPage p (PageSize choice) st
        = {| currentPage := 1; pageSize := size |}).
Proof.
  intros Hp Hst. split.
  - unfold clickPage. destruct (Z.ltb_spec 1 (pages p)); simpl; [|done].
    destruct click as [| |button|choice].
    + destruct (Z.leb_spec (page p) 1); simpl; lia.
    + destruct (Z.leb_spec (pages p) (page p)); simpl; lia.
    + destruct (pageButtons p !! button) as [n|] eqn:Hn; [|done].
      simpl. apply pageButtons_lookup in Hn as [Hi ->]. lia.
    + destruct (pageSizes !! choice); simpl; lia.
  - intros choice size Hsize Hpages. unfold clickPage.
    destruct (Z.ltb_spec 1 (pages p)); [|lia]. simpl. by rewrite Hsize.
Qed.

Lemma page_clicks_stay_in_range_witness :
  currentPage
    (clickPage {| page := 3; limit := 20; total := 50; pages := 3 |}
       NextPage {| currentPage := 3; pageSize := 20 |}) = 3
  /\ 1 <= currentPage
            (clickPage {| page := 3; limit := 20; total := 50; pages := 3 |}
               (PageNumber 0) {| currentPage := 3; pageSize := 20 |}) <= 3.
Proof.
  split; [reflexivity|].
  apply (page_clicks_stay_in_range
           {| page := 3; limit := 20; total := 50; pages := 3 |}
           (PageNumber 0) {| currentPage := 3; pageSize := 20 |});
    simpl; lia.
Defined.

(** On a page that starts within the total, the range shown starts at
    1 or above, ends at the total at most, is not empty and holds no
    more than a page's worth of questions. *)
Theorem showing_range_bounds (p : pagination) :
  1 <= page p -> 0 < limit p -> (page p - 1) * limit p < total p ->
  1 <= showingFrom p <= showingTo p
  /\ showingTo p <= total p
  /\ showingTo p - showingFrom p < limit p.
Proof.
  intros Hpage Hlimit Hstart. unfold showingFrom, showingTo. nia.
Qed.

Lemma showing_range_bounds_witness :
  1 <= showingFrom {| page := 3; limit := 20; total := 50; pages := 3 |}
    <= showingTo {| page := 3; limit := 20; total := 50; pages := 3 |}
  /\ showingTo {| page := 3; limit := 20; total := 50; pages := 3 |} <= 50
  /\ showingTo {| page := 3; limit := 20; total := 50; pages := 3 |}
     - showingFrom {| page := 3; limit := 20; total := 50; pages := 3 |} < 20.
Proof.
  apply (showing_range_bounds
           {| page := 3; limit := 20; total := 50; pages := 3 |});
    simpl; lia.
Defined.

(** *** Socket counters *)

Lemma socket_counters_from (events : list socket_event) (s : stats) :
  totalQuestions (foldl (fun s ev => onSocketEvent ev s) s events)
  = totalQuestions s + Z.of_nat (length (List.filter isCreated events))
  /\ questionsAdded (foldl (fun s ev => onSocketEvent ev s) s events)
     = questionsAdded s + Z.of_nat (length (List.filter isCreated events))
  /\ questionsUpdated (foldl (fun s ev => onSocketEvent ev s) s events)
     = questionsUpdated s
       + Z.of_nat (length events - length (List.filter isCreated events)).
Proof.
  revert s. induction events as [|ev events IH]; intros s; simpl.
  - lia.
  - destruct (IH (onSocketEvent ev s)) as (-> & -> & ->).
    pose proof (filter_length_le isCreated events).
    destruct ev; simpl; lia.
Qed.

(** Between them the socket handlers count every event once: the total
    always equals the number of questions added, which is the number of
    creation events, and the updates are the other events; the total is
    a count of events seen, not of questions stored. *)
Theorem socket_counters (events : list socket_event) :
  totalQuestions (foldl (fun s ev => onSocketEvent ev s) initialStats events)
  = questionsAdded (foldl (fun s ev => onSocketEvent ev s) initialStats events)
  /\ questionsAdded
       (foldl (fun s ev => onSocketEvent ev s) initialStats events)
     = Z.of_nat (length (List.filter isCreated events))
  /\ questionsAdded
       (foldl (fun s ev => onSocketEvent ev s) initialStats events)
     + questionsUpdated
         (foldl (fun s ev => onSocketEvent ev s) initialStats events)
     = Z.of_nat (length events).
Proof.
  destruct (socket_counters_from events initialStats) as (-> & -> & ->).
  pose proof (filter_length_le isCreated events). simpl. lia.
Qed.

(** *** The option inputs *)

Lemma filterIndexed_except {A} (target : nat) (l : list A) : forall k : nat,
  filterIndexed (fun _ i => negb (i =? target)%nat) k l
  = if (target <? k)%nat then l else delete (target - k)%nat l.
Proof.
  induction l as [|x l IH]; intros k.
  - by destruct (target <? k)%nat.
  - simpl. rewrite IH.
    destruct (Nat.ltb_spec target k) as [Hlt|Hge].
    + destruct (Nat.eqb_spec k target); [lia|]. simpl.
      by destruct (Nat.ltb_spec target (S k)); [|lia].
    + destruct (Nat.eqb_spec k target) as [->|Hne]; simpl.
      * destruct (Nat.ltb_spec target (S target)); [|lia].
        by rewrite Nat.sub_diag.
      * destruct (Nat.ltb_spec target (S k)); [lia|].
        by replace (target - k)%nat with (S (target - S k)) by lia.
Qed.

Lemma withOptions_same (fd : form_data) : withOptions (fd_options fd) fd = fd.
Proof. by destruct fd. Qed.

Lemma removeOption_options (index : nat) (fd : form_data) :
  fd_options (removeOption index fd) = delete index (fd_options fd).
Proof.
  unfold removeOption. simpl. rewrite filterIndexed_except. simpl.
  by rewrite Nat.sub_0_r.
Qed.

(** Remove takes out the option at its index and nothing else, the
    others keeping their order; beyond the last option it changes
    nothing; it undoes Add Option.  The correct answer is left as it
    is, also when the option removed was the correct one. *)
Theorem remove_option_deletes (index : nat) (fd : form_data) :
  fd_options (removeOption index fd) = delete index (fd_options fd)
  /\ ((length (fd_options fd) <= index)%nat -> removeOption index fd = fd)
  /\ removeOption (length (fd_options fd)) (addOption fd) = fd
  /\ fd_correctAnswer (removeOption index fd) = fd_correctAnswer fd.
Proof.
  split; [apply removeOption_options|]. split; [|split; [|done]].
  - intros Hge. unfold removeOption. rewrite filterIndexed_except. simpl.
    rewrite Nat.sub_0_r.
    assert (delete index (fd_options fd) = fd_options fd) as ->.
    { revert index Hge.
      induction (fd_options fd) as [|x l IH]; intros index Hge; [by destruct index|].
      destruct index as [|index]; simpl in *; [lia|]. f_equal. apply IH. lia. }
    apply withOptions_same.
  - unfold removeOption, addOption. simpl. rewrite filterIndexed_except.
    simpl. rewrite Nat.sub_0_r.
    assert (delete (length (fd_options fd)) (fd_options fd ++ [JStr ""])
            = fd_options fd) as ->.
    { induction (fd_options fd) as [|x l IH]; simpl; [done|]. by rewrite IH. }
    by destruct fd.
Qed.

Lemma editOptions_length (edit : option_edit) (fd : form_data) :
  (2 <= length (fd_options fd))%nat ->
  (2 <= length (fd_options (editOptions edit fd)))%nat.
Proof.
  intros H. destruct edit as [index value|index|]; simpl.
  - destruct (Nat.ltb_spec index (length (fd_options fd))); [|done].
    simpl. unfold ExamInterface.assignIndex.
    destruct (Nat.ltb_spec index (length (fd_options fd))); [|lia].
    by rewrite length_insert.
  - destruct (Nat.ltb_spec 2 (length (fd_options fd))); simpl; [|done].
    destruct (Nat.ltb_spec index (length (fd_options fd))); [|done].
    rewrite removeOption_options.
    rewrite length_delete by (by apply lookup_lt_is_Some). lia.
  - rewrite length_app. simpl. lia.
Qed.

(** Through the option inputs, the Remove buttons and Add Option, a
    multiple-choice form that has at least two options keeps at least
    two. *)
Theorem option_inputs_keep_two (edits : list option_edit) (fd : form_data) :
  (2 <= length (fd_options fd))%nat ->
  (2 <= length (fd_options (foldl (fun f edit => editOptions edit f) fd edits)))%nat.
Proof.
  revert fd. induction edits as [|edit edits IH]; intros fd H; [done|].
  simpl. apply IH. by apply editOptions_length.
Qed.

Lemma option_inputs_keep_two_witness :
  (2 <= length
          (fd_options
             (foldl (fun f edit => editOptions edit f) emptyForm
                [RemoveOption 0; RemoveOption 0; RemoveOption 0;
                 EditOption 1 "four"; RemoveOption 1])))%nat.
Proof.
  apply (option_inputs_keep_two
           [RemoveOption 0; RemoveOption 0; RemoveOption 0;
            EditOption 1 "four"; RemoveOption 1] emptyForm).
  simpl. lia.
Defined.

Lemma remove_option_deletes_witness :
  removeOption 7 emptyForm = emptyForm.
Proof.
  apply (proj1 (proj2 (remove_option_deletes 7 emptyForm))). simpl. lia.
Defined.

(** *** The blanks *)

Lemma append_cons (c : ascii) (s t : string) :
  String c s +:+ t = String c (s +:+ t).
Proof. reflexivity. Qed.

Lemma append_nil (t : string) : "" +:+ t = t.
Proof. reflexivity. Qed.

Lemma append_assoc (s t u : string) : (s +:+ t) +:+ u = s +:+ (t +:+ u).
Proof.
  induction s as [|c s IH]; [done|]. by rewrite !append_cons, IH.
Qed.

Lemma scanBlanks_no_close (s : string) : forall current : option string,
  hasChar ")" s = false -> scanBlanks current s = [].
Proof.
  induction s as [|c s IH]; intros current H; [done|].
  simpl in *. apply orb_false_iff in H as [Hc Hs].
  destruct current as [m|].
  - rewrite Hc. by apply IH.
  - destruct (Ascii.eqb c "("); by apply IH.
Qed.

Lemma scanBlanks_no_open (s : string) :
  hasChar "(" s = false -> scanBlanks None s = [].
Proof.
  induction s as [|c s IH]; intros H; [done|].
  simpl in *. apply orb_false_iff in H as [Hc Hs].
  rewrite Hc. by apply IH.
Qed.

Lemma scanBlanks_skip (pre s : string) :
  hasChar "(" pre = false ->
  scanBlanks None (pre +:+ s) = scanBlanks None s.
Proof.
  induction pre as [|c pre IH]; intros H; [done|].
  simpl in H. apply orb_false_iff in H as [Hc Hpre].
  rewrite append_cons. simpl. rewrite Hc. by apply IH.
Qed.

Lemma scanBlanks_inside (w : string) : forall (m rest : string),
  hasChar ")" w = false ->
  scanBlanks (Some m) (w +:+ ")" +:+ rest)
  = (m +:+ w +:+ ")") :: scanBlanks None rest.
Proof.
  induction w as [|c w IH]; intros m rest H.
  - rewrite append_nil, append_cons. simpl. by rewrite append_nil.
  - simpl in H. apply orb_false_iff in H as [Hc Hw].
    rewrite append_cons. simpl. rewrite Hc.
    rewrite IH by done. by rewrite append_assoc.
Qed.

Lemma sliceInside_parens (w : string) : sliceInside ("(" +:+ w +:+ ")") = w.
Proof.
  assert (Hlen : String.length (w +:+ ")") = S (String.length w)).
  { induction w as [|c w IH]; [done|]. rewrite append_cons. simpl.
    by rewrite IH. }
  unfold sliceInside. rewrite append_cons, append_nil.
  change (String.length (String "(" (w +:+ ")")))
    with (S (String.length (w +:+ ")"))).
  rewrite Hlen.
  replace (S (S (String.length w)) - 2)%nat with (String.length w) by lia.
  change (String.substring 0 (String.length w) (w +:+ ")") = w).
  induction w as [|c w IH]; [done|].
  rewrite append_cons. simpl. f_equal. apply IH.
  rewrite append_cons in Hlen. simpl in Hlen. lia.
Qed.

Lemma scanBlanks_withBlanks (pieces : list (string * string)) (tail : string) :
  Forall (fun piece => hasChar "(" piece.1 = false
                       /\ hasChar ")" piece.2 = false) pieces ->
  hasChar "(" tail = false ->
  scanBlanks None (withBlanks pieces tail)
  = (fun piece => "(" +:+ piece.2 +:+ ")") <$> pieces.
Proof.
  intros Hpieces Htail.
  induction Hpieces as [|[pre w] pieces [Hpre Hw] _ IH]; simpl.
  - by apply scanBlanks_no_open.
  - rewrite scanBlanks_skip by done.
    rewrite append_cons, append_nil. simpl.
    rewrite scanBlanks_inside by done. by rewrite IH.
Qed.

(** A text made of pieces "words (blank)" gives one option per blank,
    in order, holding what stands between the parentheses and marked
    not correct; a text without an opening or without a closing
    parenthesis leaves the options as they were, also those of blanks
    that have been deleted. *)
Theorem blanks_become_options (pieces : list (string * string))
    (tail : string) (fd : form_data) :
  Forall (fun piece => hasChar "(" piece.1 = false
                       /\ hasChar ")" piece.2 = false) pieces ->
  hasChar "(" tail = false ->
  pieces <> [] ->
  fd_options (handleBlankTextChange (withBlanks pieces tail) fd)
  = (fun piece => JObj [("text", JStr piece.2); ("isCorrect", JBool false)])
    <$> pieces
  /\ fd_question (handleBlankTextChange (withBlanks pieces tail) fd)
     = JStr (withBlanks pieces tail)
  /\ (forall text : string,
        hasChar "(" text = false \/ hasChar ")" text = false ->
        fd_options (handleBlankTextChange text fd) = fd_options fd).
Proof.
  intros Hpieces Htail Hne.
  assert (Hscan := scanBlanks_withBlanks pieces tail Hpieces Htail).
  unfold handleBlankTextChange, matchBlanks. rewrite Hscan.
  destruct pieces as [|piece pieces]; [done|]. simpl.
  split; [|split; [done|]].
  - rewrite sliceInside_parens. do 2 f_equal.
    rewrite <- list_fmap_compose. apply list_fmap_ext.
    intros i p _. simpl. by rewrite sliceInside_parens.
  - intros text [H|H].
    + by rewrite scanBlanks_no_open.
    + by rewrite scanBlanks_no_close.
Qed.

Lemma blanks_become_options_witness :
  fd_options
    (handleBlankTextChange
       (withBlanks [("The ", "cat"); (" sat on the ", "mat")] ".") emptyForm)
  = [JObj [("text", JStr "cat"); ("isCorrect", JBool false)];
     JObj [("text", JStr "mat"); ("isCorrect", JBool false)]].
Proof.
  refine (proj1 (blanks_become_options
                   [("The ", "cat"); (" sat on the ", "mat")] "." emptyForm
                   _ _ _)).
  - repeat constructor.
  - reflexivity.
  - discriminate.
Defined.

(** *** Images *)

Lemma isValidFile_spec (f : file) :
  isValidFile f = true
  <-> file_type f ∈ validTypes /\ file_size f <= maxSize.
Proof.
  unfold isValidFile, refusal.
  destruct (existsb (String.eqb (file_type f)) validTypes) eqn:Hty; simpl.
  - apply existsb_exists in Hty as (t & Hin & Heq).
    apply String.eqb_eq in Heq as <-. apply list_elem_of_In in Hin.
    destruct (Z.ltb_spec maxSize (file_size f)) as [Hgt|Hle].
    + split; [done|]. intros [_ ?]. lia.
    + split; [|done]. intros _. by split.
  - split; [done|]. intros [Hin _]. apply list_elem_of_In in Hin.
    assert (existsb (String.eqb (file_type f)) validTypes = true);
      [|congruence].
    apply existsb_exists. exists (file_type f). split; [done|].
    apply String.eqb_refl.
Qed.

(** The files the callback of [files.filter] keeps are those of one of
    the five image types and of 5242880 bytes at most, in the order of
    the pick. *)
Lemma validFiles_spec (files : list file) :
  List.filter isValidFile files
  = filter (fun f => file_type f ∈ validTypes /\ file_size f <= 5242880) files.
Proof.
  induction files as [|f files IH]; [done|].
  rewrite filter_cons. simpl. rewrite IH.
  destruct (isValidFile f) eqn:Hvalid.
  - apply isValidFile_spec in Hvalid. by rewrite decide_True.
  - rewrite decide_False; [done|]. intros H.
    apply isValidFile_spec in H. congruence.
Qed.

Lemma refusals_are_toasts (files : list file) (last : list effect) :
  existsb is_request last = false ->
  existsb is_request ((ErrorToast <$> omap refusal files) ++ last) = false.
Proof.
  intros Hlast. rewrite existsb_app, Hlast, orb_false_r.
  induction (omap refusal files) as [|m l IH]; [done|]. by simpl.
Qed.

(** Picking files never leaves the form with more than five images
    when it had five or fewer.  The files of one of the five image types
    and of 5 MB (5242880 bytes) at most are the valid ones.  When the
    valid files of the pick and the images already there are five or
    fewer together, every valid file is added, in the order of the pick,
    after the images already there, and nothing else of the form
    changes; when they are more than five, the form is left as it was
    and the toast about the maximum is shown.  No other file is ever
    added, and the handler only shows toasts. *)
Theorem image_upload_limit (createObjectURL : file -> string)
    (files : list file) (fd : form_data) :
  (length (fd_images fd) <= 5)%nat ->
  (length (fd_images (fst (handleImageUpload createObjectURL files fd))) <= 5)%nat
  /\ (fst (handleImageUpload createObjectURL files fd) = fd
      \/ fd_images (fst (handleImageUpload createObjectURL files fd))
         = fd_images fd
           ++ ((fun f => Uploaded f (createObjectURL f))
               <$> List.filter isValidFile files))
  /\ (forall image : image,
        image ∈ fd_images (fst (handleImageUpload createObjectURL files fd)) ->
        image ∈ fd_images fd
        \/ exists f : file,
             image = Uploaded f (createObjectURL f) /\ f ∈ files
             /\ file_type f ∈ validTypes /\ file_size f <= 5242880)
  /\ existsb is_request (snd (handleImageUpload createObjectURL files fd))
     = false
  /\ ((length (filter (fun f => file_type f ∈ validTypes
                               /\ (file_size f <= 5242880)%Z) files)
       + length (fd_images fd) <= 5)%nat ->
      fst (handleImageUpload createObjectURL files fd)
      = withImages
          (fd_images fd
           ++ ((fun f => Uploaded f (createObjectURL f))
               <$> filter (fun f => file_type f ∈ validTypes
                                    /\ file_size f <= 5242880) files))
          fd
      /\ (forall f : file,
            f ∈ files -> file_type f ∈ validTypes ->
            file_size f <= 5242880 ->
            Uploaded f (createObjectURL f)
            ∈ fd_images (fst (handleImageUpload createObjectURL files fd)))
      /\ snd (handleImageUpload createObjectURL files fd)
         = ErrorToast <$> omap refusal files)
  /\ ((5 < length (filter (fun f => file_type f ∈ validTypes
                                   /\ (file_size f <= 5242880)%Z) files)
           + length (fd_images fd))%nat ->
      fst (handleImageUpload createObjectURL files fd) = fd
      /\ snd (handleImageUpload createObjectURL files fd)
         = (ErrorToast <$> omap refusal files)
           ++ [ErrorToast "Maximum 5 images allowed per question"]).
Proof.
  intros Hlen. rewrite <- validFiles_spec. unfold handleImageUpload.
  destruct (Nat.ltb_spec 5 (length (List.filter isValidFile files)
                            + length (fd_images fd))) as [Hover|Hfit]; simpl.
  - split; [done|]. split; [by left|]. split; [by left|].
    split; [by apply refusals_are_toasts|].
    split; [intros H; lia|done].
  - split; [rewrite length_app, length_fmap; lia|].
    split; [by right|]. split; [|split; [|split]].
    + intros image Him. apply elem_of_app in Him as [Him|Him]; [by left|].
      right. apply list_elem_of_fmap in Him as (f & -> & Hf).
      apply list_elem_of_In, filter_In in Hf as [Hin Hvalid].
      apply isValidFile_spec in Hvalid as [Hty Hsize].
      exists f. split; [done|]. split; [by apply list_elem_of_In|].
      split; [done|]. exact Hsize.
    + rewrite <- (app_nil_r (ErrorToast <$> omap refusal files)).
      by apply refusals_are_toasts.
    + intros _. split; [done|]. split; [|done].
      intros f Hf Hty Hsize. apply elem_of_app. right.
      apply list_elem_of_fmap. exists f. split; [done|].
      apply list_elem_of_In, filter_In. split; [by apply list_elem_of_In|].
      by apply isValidFile_spec.
    + intros H. lia.
Qed.

(** A pick of a valid image, a PDF and an image that is too large, on
    the empty form: the one valid image is added. *)
Lemma image_upload_limit_witness :
  fd_images
    (fst (handleImageUpload sampleObjectURL
            [ {| file_name := "a.png"; file_type := "image/png";
                 file_size := 1000 |};
              {| file_name := "b.pdf"; file_type := "application/pdf";
                 file_size := 1000 |};
              {| file_name := "c.gif"; file_type := "image/gif";
                 file_size := 5242881 |} ]
            emptyForm))
  = [Uploaded {| file_name := "a.png"; file_type := "image/png";
                 file_size := 1000 |} "blob:a.png"]
  /\ (length
        (fd_images
           (fst (handleImageUpload sampleObjectURL
                   [ {| file_name := "a.png"; file_type := "image/png";
                        file_size := 1000 |};
                     {| file_name := "b.pdf"; file_type := "application/pdf";
                        file_size := 1000 |};
                     {| file_name := "c.gif"; file_type := "image/gif";
                        file_size := 5242881 |} ]
                   emptyForm))) <= 5)%nat
  /\ Uploaded {| file_name := "a.png"; file_type := "image/png";
                 file_size := 1000 |} "blob:a.png"
     ∈ fd_images
         (fst (handleImageUpload sampleObjectURL
                 [ {| file_name := "a.png"; file_type := "image/png";
                      file_size := 1000 |};
                   {| file_name := "b.pdf"; file_type := "application/pdf";
                      file_size := 1000 |};
                   {| file_name := "c.gif"; file_type := "image/gif";
                      file_size := 5242881 |} ]
                 emptyForm)).
Proof.
  split; [reflexivity|].
  destruct (image_upload_limit sampleObjectURL
              [ {| file_name := "a.png"; file_type := "image/png";
                   file_size := 1000 |};
                {| file_name := "b.pdf"; file_type := "application/pdf";
                   file_size := 1000 |};
                {| file_name := "c.gif"; file_type := "image/gif";
                   file_size := 5242881 |} ]
              emptyForm) as (Hmax & _ & _ & _ & Hfit & _).
  - simpl. lia.
  - split; [exact Hmax|].
    destruct Hfit as (_ & Hadded & _).
    + vm_compute. lia.
    + apply (Hadded {| file_name := "a.png"; file_type := "image/png";
                       file_size := 1000 |}).
      * set_solver.
      * set_solver.
      * simpl. lia.
Defined.

(** *** Saving the form *)

Section Saving.
Variable trim : string -> string.

Lemma filterResult_strings (texts : list string) :
  filterResult (nonBlank trim) (JStr <$> texts)
  = Ok (JStr <$> List.filter (fun s => negb (String.eqb (trim s) "")) texts).
Proof.
  induction texts as [|s texts IH]; [done|].
  rewrite fmap_cons. cbn [filterResult]. rewrite IH. simpl.
  by destruct (negb (String.eqb (trim s) "")).
Qed.

Lemma filterResult_not_a_string (l : list jsval) (opt : jsval) :
  opt ∈ l -> isString opt = false ->
  exists e : js_error, filterResult (nonBlank trim) l = Throw e.
Proof.
  intros Hin Hopt. induction l as [|x l IH]; [by apply elem_of_nil in Hin|].
  simpl. destruct (isString x) eqn:Hx.
  - destruct x; try discriminate. simpl.
    apply elem_of_cons in Hin as [->|Hin]; [discriminate|].
    destruct (IH Hin) as [e ->]. by exists e.
  - destruct x; try discriminate; simpl; eauto.
Qed.

Lemma filterResult_text_of_strings (texts : list jsval) :
  Forall (fun t => isString t = true) texts ->
  filterResult (nonBlankText trim) texts = Ok [].
Proof.
  induction 1 as [|t texts Ht _ IH]; [done|].
  simpl. destruct t; try discriminate. simpl. by rewrite IH.
Qed.

Lemma handleAddQuestion_strings (fd : form_data) (texts : list string) :
  fd_type fd = JStr "MULTIPLE_CHOICE" ->
  fd_options fd = JStr <$> texts ->
  formComplete fd = true ->
  handleAddQuestion trim fd
  = [CreateQuestion
       (JObj [("text", fd_question fd);
              ("examCategoryId", fd_categoryId fd);
              ("difficulty", fd_difficulty fd);
              ("type", JStr "MULTIPLE_CHOICE");
              ("marks", fd_points fd);
              ("timeLimit", fd_timeLimit fd);
              ("options",
               JArr ((fun s =>
                        JObj [("text", JStr s);
                              ("isCorrect",
                               JBool (strictEquals (JStr s)
                                        (fd_correctAnswer fd)))])
                     <$> List.filter
                           (fun s => negb (String.eqb (trim s) "")) texts));
              ("explanation", fd_explanation fd)])
       (pickedFiles (fd_images fd))].
Proof.
  intros Htype Hopts Hcomplete. unfold handleAddQuestion, buildOptions.
  rewrite Hcomplete, Htype, Hopts. simpl.
  rewrite filterResult_strings. simpl.
  by rewrite <- list_fmap_compose.
Qed.

(** Saving a multiple-choice form whose options are all strings: when
    the form is complete, one request goes out; it carries the options
    whose text is not blank, in the order of the form, each marked
    correct exactly when its text equals the correct answer - so none,
    or several, may be marked. *)
Theorem add_question_multiple_choice (fd : form_data) (texts : list string) :
  fd_type fd = JStr "MULTIPLE_CHOICE" ->
  fd_options fd = JStr <$> texts ->
  formComplete fd = true ->
  handleAddQuestion trim fd
  = [CreateQuestion
       (JObj [("text", fd_question fd);
              ("examCategoryId", fd_categoryId fd);
              ("difficulty", fd_difficulty fd);
              ("type", JStr "MULTIPLE_CHOICE");
              ("marks", fd_points fd);
              ("timeLimit", fd_timeLimit fd);
              ("options",
               JArr ((fun s =>
                        JObj [("text", JStr s);
                              ("isCorrect",
                               JBool (strictEquals (JStr s)
                                        (fd_correctAnswer fd)))])
                     <$> List.filter
                           (fun s => negb (String.eqb (trim s) "")) texts));
              ("explanation", fd_explanation fd)])
       (pickedFiles (fd_images fd))].
Proof. apply handleAddQuestion_strings. Qed.

(** An incomplete form is answered with the one toast, whatever its
    options are, and nothing is sent. *)
Lemma incomplete_form_is_refused (fd : form_data) (editingQuestion : jsval) :
  formComplete fd = false ->
  handleAddQuestion trim fd
  = [ErrorToast "Please fill in all required fields"]
  /\ handleUpdateQuestion trim editingQuestion fd
     = [ErrorToast "Please fill in all required fields"].
Proof.
  intros H. unfold handleAddQuestion, handleUpdateQuestion. by rewrite H.
Qed.

Lemma formComplete_handleOptionChange (index : nat) (value : string)
    (fd : form_data) :
  fd_type fd = JStr "MULTIPLE_CHOICE" ->
  formComplete (handleOptionChange index value fd) = formComplete fd.
Proof. intros Htype. unfold formComplete. simpl. by rewrite Htype. Qed.

(** The correct answer is kept as a text of its own: when the only
    option that carries it is retyped, the form still counts as
    complete and the question is saved with no option marked
    correct. *)
Theorem retyped_correct_option_is_lost (fd : form_data)
    (texts : list string) (index : nat) (correct value : string) :
  fd_type fd = JStr "MULTIPLE_CHOICE" ->
  fd_options fd = JStr <$> texts ->
  fd_correctAnswer fd = JStr correct ->
  formComplete fd = true ->
  texts !! index = Some correct ->
  (forall j : nat, j <> index -> texts !! j <> Some correct) ->
  value <> correct ->
  exists (questionData : jsval) (options : list jsval),
    handleAddQuestion trim (handleOptionChange index value fd)
    = [CreateQuestion questionData (pickedFiles (fd_images fd))]
    /\ field questionData "options" = JArr options
    /\ Forall (fun o => field o "isCorrect" = JBool false) options.
Proof.
  intros Htype Hopts Hcorrect Hcomplete Hindex Hunique Hvalue.
  assert (Hlt : (index < length texts)%nat) by (by eapply lookup_lt_Some).
  assert (Hnew : fd_options (handleOptionChange index value fd)
                 = JStr <$> <[index := value]> texts).
  { simpl. rewrite Hopts. unfold ExamInterface.assignIndex.
    rewrite length_fmap.
    destruct (Nat.ltb_spec index (length texts)); [|lia].
    by rewrite list_fmap_insert. }
  rewrite (handleAddQuestion_strings _ (<[index := value]> texts));
    [|done|done|by rewrite formComplete_handleOptionChange].
  eexists _, _. split; [reflexivity|]. split; [reflexivity|].
  apply Forall_fmap, Forall_forall. intros s Hs. simpl.
  apply list_elem_of_In, filter_In in Hs as [Hs _].
  apply list_elem_of_In, list_elem_of_lookup in Hs as [j Hj].
  rewrite Hcorrect. simpl. f_equal.
  apply String.eqb_neq. intros ->.
  destruct (decide (j = index)) as [->|Hne].
  - rewrite list_lookup_insert_eq in Hj by done. congruence.
  - rewrite list_lookup_insert_ne in Hj by done. by apply (Hunique j).
Qed.

(** A multiple-choice form with an option that is not a string - such
    as the blanks generated for a fill-in-the-blank question before the
    type was changed - cannot be saved: the handlers throw before any
    request is made, and show no toast either. *)
Theorem structured_option_blocks_saving (fd : form_data) (opt : jsval)
    (editingQuestion : jsval) :
  fd_type fd = JStr "MULTIPLE_CHOICE" ->
  formComplete fd = true ->
  opt ∈ fd_options fd -> isString opt = false ->
  (exists e : js_error, handleAddQuestion trim fd = [Uncaught e])
  /\ (exists e : js_error,
        handleUpdateQuestion trim editingQuestion fd = [Uncaught e]).
Proof.
  intros Htype Hcomplete Hin Hopt.
  destruct (filterResult_not_a_string _ _ Hin Hopt) as [e He].
  unfold handleAddQuestion, handleUpdateQuestion, buildOptions.
  rewrite Hcomplete, Htype. simpl. rewrite He. simpl. eauto.
Qed.

End Saving.

Lemma add_question_multiple_choice_witness :
  handleAddQuestion trimAscii
    (sampleForm "MULTIPLE_CHOICE" "4" [JStr "3"; JStr "  "; JStr "4"; JStr "4"])
  = [CreateQuestion
       (JObj [("text", JStr "2 + 2 = ?");
              ("examCategoryId", JStr "cat_001");
              ("difficulty", JStr "EASY");
              ("type", JStr "MULTIPLE_CHOICE");
              ("marks", JNum 1);
              ("timeLimit", JNum 60);
              ("options",
               JArr [JObj [("text", JStr "3"); ("isCorrect", JBool false)];
                     JObj [("text", JStr "4"); ("isCorrect", JBool true)];
                     JObj [("text", JStr "4"); ("isCorrect", JBool true)]]);
              ("explanation", JStr "")])
       []].
Proof.
  exact (add_question_multiple_choice trimAscii
           (sampleForm "MULTIPLE_CHOICE" "4"
              [JStr "3"; JStr "  "; JStr "4"; JStr "4"])
           ["3"; "  "; "4"; "4"] eq_refl eq_refl eq_refl).
Defined.

Lemma retyped_correct_option_is_lost_witness :
  exists (questionData : jsval) (options : list jsval),
    handleAddQuestion trimAscii
      (handleOptionChange 1 "four"
         (sampleForm "MULTIPLE_CHOICE" "4" [JStr "3"; JStr "4"]))
    = [CreateQuestion questionData []]
    /\ field questionData "options" = JArr options
    /\ Forall (fun o => field o "isCorrect" = JBool false) options.
Proof.
  refine (retyped_correct_option_is_lost trimAscii
            (sampleForm "MULTIPLE_CHOICE" "4" [JStr "3"; JStr "4"])
            ["3"; "4"] 1 "4" "four" eq_refl eq_refl eq_refl eq_refl eq_refl
            _ _).
  - intros [|[|j]] Hj; [discriminate|done|discriminate].
  - discriminate.
Defined.

(** The blanks of "The (cat)" typed into a fill-in-the-blank form, the
    type then set to multiple choice. *)
Lemma structured_option_blocks_saving_witness :
  exists e : js_error,
    handleAddQuestion trimAscii
      (withType (JStr "MULTIPLE_CHOICE")
         (handleBlankTextChange "The (cat)"
            (sampleForm "FILL_IN_THE_BLANK" "cat" [])))
    = [Uncaught e].
Proof.
  refine (proj1 (structured_option_blocks_saving trimAscii
                   (withType (JStr "MULTIPLE_CHOICE")
                      (handleBlankTextChange "The (cat)"
                         (sampleForm "FILL_IN_THE_BLANK" "cat" [])))
                   (JObj [("text", JStr "cat"); ("isCorrect", JBool false)])
                   JNull eq_refl eq_refl _ eq_refl)).
  apply list_elem_of_singleton. reflexivity.
Defined.

(** *** Opening a question and saving it again *)

Lemma editOptionsOf_array (opts : list jsval) :
  Forall (fun o => nullish o = false) opts ->
  editOptionsOf (JArr opts) = Ok ((fun o => field o "text") <$> opts).
Proof.
  intros H. simpl. generalize 0%nat.
  induction H as [|o opts Ho _ IH]; intros k; [done|].
  simpl. rewrite (QuestionsSpec.get_field o "text" Ho). simpl.
  by rewrite IH.
Qed.

Lemma handleEditQuestion_ok (question : jsval) (options : list jsval) :
  nullish question = false ->
  editOptionsOf (field question "options") = Ok options ->
  handleEditQuestion question
  = Ok {| fd_question := field question "text";
          fd_categoryId := field question "examCategoryId";
          fd_difficulty := field question "difficulty";
          fd_type := field question "type";
          fd_correctAnswer := field question "correctAnswer";
          fd_options := options;
          fd_explanation := js_or (field question "explanation") (JStr "");
          fd_points := js_or (field question "marks") (JNum 1);
          fd_timeLimit := js_or (field question "timeLimit") (JNum 60);
          fd_images := editImagesOf (field question "images") |}.
Proof.
  intros Hq Hopts. unfold handleEditQuestion.
  rewrite !QuestionsSpec.get_field by done. simpl. by rewrite Hopts.
Qed.

Section EditAndSave.
Variable trim : string -> string.

(** Opening a fill-in-the-blank question for editing and saving it
    without retyping its text sends an update with no options at all:
    the form is filled with the texts of the options, which the save
    handler, looking for the [text] of each, drops. *)
Theorem editing_fill_in_the_blank_drops_options (question : jsval)
    (opts : list jsval) :
  nullish question = false ->
  truthy (field question "text") = true ->
  truthy (field question "examCategoryId") = true ->
  field question "type" = JStr "FILL_IN_THE_BLANK" ->
  field question "options" = JArr opts ->
  opts <> [] ->
  Forall (fun o => nullish o = false /\ isString (field o "text") = true)
         opts ->
  exists fd : form_data,
    handleEditQuestion question = Ok fd
    /\ fd_options fd = (fun o => field o "text") <$> opts
    /\ handleUpdateQuestion trim question fd
       = [UpdateQuestion (field question "id")
            (JObj [("text", field question "text");
                   ("examCategoryId", field question "examCategoryId");
                   ("difficulty", field question "difficulty");
                   ("type", JStr "FILL_IN_THE_BLANK");
                   ("marks", js_or (field question "marks") (JNum 1));
                   ("timeLimit", js_or (field question "timeLimit") (JNum 60));
                   ("options", JArr [])])].
Proof.
  intros Hq Htext Hcat Htype Hopts Hne Hall.
  remember ((fun o => field o "text") <$> opts) as texts eqn:Htexts.
  assert (Hedit : editOptionsOf (field question "options") = Ok texts).
  { rewrite Hopts, Htexts. apply editOptionsOf_array.
    eapply Forall_impl; [exact Hall|]. by intros o [? _]. }
  assert (Hstrings : Forall (fun t => isString t = true) texts).
  { rewrite Htexts. apply Forall_fmap.
    eapply Forall_impl; [exact Hall|]. by intros ? [_ ?]. }
  assert (Hlen : (0 <? length texts)%nat = true).
  { rewrite Htexts, length_fmap. destruct opts; [done|]. reflexivity. }
  eexists. split; [by apply handleEditQuestion_ok|]. split; [done|].
  unfold handleUpdateQuestion, formComplete, buildOptions. simpl.
  rewrite Htext, Hcat, Htype, Hlen. simpl.
  rewrite (filterResult_text_of_strings trim texts Hstrings). simpl.
  by rewrite (QuestionsSpec.get_field question "id" Hq).
Qed.

(** Opening a multiple-choice question whose options have texts and
    saving it sends the non-blank texts back in order, each marked
    correct exactly when it equals the question's [correctAnswer]; the
    [isCorrect] flags stored with the options play no part.  A question
    that comes without a [correctAnswer] cannot be saved as opened: the
    form counts as incomplete. *)
Theorem editing_multiple_choice_round_trip (question : jsval)
    (opts : list jsval) (texts : list string) (correct : string) :
  nullish question = false ->
  truthy (field question "text") = true ->
  truthy (field question "examCategoryId") = true ->
  field question "type" = JStr "MULTIPLE_CHOICE" ->
  field question "options" = JArr opts ->
  Forall (fun o => nullish o = false) opts ->
  (fun o => field o "text") <$> opts = JStr <$> texts ->
  (field question "correctAnswer" = JStr correct -> correct <> "" ->
   exists fd : form_data,
     handleEditQuestion question = Ok fd
     /\ handleUpdateQuestion trim question fd
        = [UpdateQuestion (field question "id")
             (JObj [("text", field question "text");
                    ("examCategoryId", field question "examCategoryId");
                    ("difficulty", field question "difficulty");
                    ("type", JStr "MULTIPLE_CHOICE");
                    ("marks", js_or (field question "marks") (JNum 1));
                    ("timeLimit",
                     js_or (field question "timeLimit") (JNum 60));
                    ("options",
                     JArr ((fun s =>
                              JObj [("text", JStr s);
                                    ("isCorrect",
                                     JBool (String.eqb s correct))])
                           <$> List.filter
                                 (fun s => negb (String.eqb (trim s) ""))
                                 texts))])])
  /\ (truthy (field question "correctAnswer") = false ->
      exists fd : form_data,
        handleEditQuestion question = Ok fd
        /\ handleUpdateQuestion trim question fd
           = [ErrorToast "Please fill in all required fields"]).
Proof.
  intros Hq Htext Hcat Htype Hopts Hall Htexts.
  assert (Hedit : editOptionsOf (field question "options")
                  = Ok (JStr <$> texts)).
  { rewrite Hopts, <- Htexts. by apply editOptionsOf_array. }
  split.
  - intros Hcorrect Hne.
    eexists. split; [by apply handleEditQuestion_ok|].
    unfold handleUpdateQuestion, formComplete, buildOptions. simpl.
    rewrite Htext, Hcat, Htype, Hcorrect. simpl.
    apply String.eqb_neq in Hne. rewrite Hne. simpl.
    rewrite filterResult_strings. simpl.
    rewrite (QuestionsSpec.get_field question "id" Hq).
    by rewrite <- list_fmap_compose.
  - intros Hfalsy.
    eexists. split; [by apply handleEditQuestion_ok|].
    unfold handleUpdateQuestion, formComplete. simpl.
    by rewrite Htext, Hcat, Htype, Hfalsy.
Qed.

End EditAndSave.

Lemma editing_fill_in_the_blank_drops_options_witness :
  exists fd : form_data,
    handleEditQuestion sampleBlankQuestion = Ok fd
    /\ fd_options fd = [JStr "cat"; JStr "mat"]
    /\ handleUpdateQuestion trimAscii sampleBlankQuestion fd
       = [UpdateQuestion (JStr "q_17")
            (JObj [("text", JStr "The (cat) sat on the (mat).");
                   ("examCategoryId", JStr "cat_001");
                   ("difficulty", JStr "EASY");
                   ("type", JStr "FILL_IN_THE_BLANK");
                   ("marks", JNum 2);
                   ("timeLimit", JNum 60);
                   ("options", JArr [])])].
Proof.
  refine (editing_fill_in_the_blank_drops_options trimAscii
            sampleBlankQuestion
            [JObj [("text", JStr "cat"); ("isCorrect", JBool true)];
             JObj [("text", JStr "mat"); ("isCorrect", JBool true)]]
            eq_refl eq_refl eq_refl eq_refl eq_refl _ _).
  - discriminate.
  - repeat constructor.
Defined.

(** A question whose stored flags mark "4" while its [correctAnswer]
    says "3". *)
Lemma editing_multiple_choice_round_trip_witness :
  exists fd : form_data,
    handleEditQuestion sampleChoiceQuestion = Ok fd
    /\ handleUpdateQuestion trimAscii sampleChoiceQuestion fd
       = [UpdateQuestion (JStr "q_18")
            (JObj [("text", JStr "2 + 2 = ?");
                   ("examCategoryId", JStr "cat_001");
                   ("difficulty", JStr "EASY");
                   ("type", JStr "MULTIPLE_CHOICE");
                   ("marks", JNum 1);
                   ("timeLimit", JNum 60);
                   ("options",
                    JArr [JObj [("text", JStr "3"); ("isCorrect", JBool true)];
                          JObj [("text", JStr "4");
                                ("isCorrect", JBool false)]])])].
Proof.
  refine (proj1 (editing_multiple_choice_round_trip trimAscii
                   sampleChoiceQuestion
                   [JObj [("text", JStr "3"); ("isCorrect", JBool false)];
                    JObj [("text", JStr "4"); ("isCorrect", JBool true)]]
                   ["3"; "4"] "3"
                   eq_refl eq_refl eq_refl eq_refl eq_refl _ eq_refl)
            eq_refl _).
  - repeat constructor.
  - discriminate.
Defined.

(** *** Bulk insert: what is passed on *)

Lemma map_indexed_all_ok {A B} (f : A -> nat -> result B) (l : list A) :
  forall k : nat,
    (forall (i : nat) (x : A),
        l !! i = Some x -> exists y : B, f x (k + i)%nat = Ok y) ->
    exists ys : list B, map_indexed f k l = Ok ys.
Proof.
  induction l as [|x l IH]; intros k Hall; [by exists []|].
  destruct (Hall 0%nat x eq_refl) as [y Hy].
  rewrite Nat.add_0_r in Hy.
  destruct (IH (S k)) as [ys Hys].
  { intros i x' Hx'. destruct (Hall (S i) x' Hx') as [y' Hy'].
    exists y'. by replace (S k + i)%nat with (k + S i)%nat by lia. }
  exists (y :: ys). simpl. by rewrite Hy, Hys.
Qed.

(** An entry the callback of [questions.map] goes through without a
    throw: it has its three required fields, and when it is of a choice
    type and has options, they are an array without [null] among
    them. *)
Lemma validateQuestion_accepts (q : jsval) (index : nat) :
  missingField q = false ->
  (isChoiceType (field q "type") = true ->
   truthy (field q "options") = true ->
   exists opts : list jsval,
     field q "options" = JArr opts
     /\ Forall (fun opt => nullish opt = false) opts) ->
  exists o : jsval, validateQuestion q index = Ok o.
Proof.
  intros Hmiss Hopts.
  assert (Hq : nullish q = false) by (by destruct q).
  unfold validateQuestion. rewrite QuestionsSpec.missingRequired_field, Hmiss by done.
  simpl. rewrite !QuestionsSpec.get_field by done. simpl.
  destruct (isChoiceType (field q "type")) eqn:Htype; simpl; [|eauto].
  destruct (truthy (field q "options")) eqn:Htruthy; simpl; [|eauto].
  destruct (Hopts eq_refl eq_refl) as (opts & -> & Hall). simpl.
  destruct (map_indexed_all_ok (fun option (_ : nat) => normalizeOption option)
              opts 0) as [normalized ->]; [|simpl; eauto].
  intros i opt Hopt. unfold normalizeOption.
  rewrite Forall_lookup in Hall. specialize (Hall i opt Hopt).
  rewrite !QuestionsSpec.get_field by done. simpl. eauto.
Qed.

(** An array is submitted, as one batch with an entry for each of its
    entries, when every entry has its three required fields and, if it
    is of a choice type and has options, these are an array without
    [null] among them; so the empty array is submitted as the empty
    batch.  Each entry of a submitted batch has exactly the seven fields
    [text], [examCategoryId], [difficulty], [type], [marks],
    [timeLimit] and [options], the first two and [type] being the
    entry's own (and truthy); whatever else an entry holds, such as an
    explanation, is not passed on. *)
Theorem bulk_insert_forwards_seven_fields
    (JSON_parse : string -> result jsval) (bulkData : string) :
  (forall items : list jsval,
      JSON_parse bulkData = Ok (JArr items) ->
      Forall (fun q =>
                missingField q = false
                /\ (isChoiceType (field q "type") = true ->
                    truthy (field q "options") = true ->
                    exists opts : list jsval,
                      field q "options" = JArr opts
                      /\ Forall (fun opt => nullish opt = false) opts))
             items ->
      exists out : list jsval,
        handleBulkInsert JSON_parse bulkData = [BulkCreateQuestions out]
        /\ length out = length items)
  /\ (JSON_parse bulkData = Ok (JArr []) ->
      handleBulkInsert JSON_parse bulkData = [BulkCreateQuestions []])
  /\ (forall out : list jsval,
        handleBulkInsert JSON_parse bulkData = [BulkCreateQuestions out] ->
        exists items : list jsval,
          JSON_parse bulkData = Ok (JArr items)
          /\ Forall2
               (fun q o =>
                  exists fields : list (string * jsval),
                    o = JObj fields
                    /\ fields.*1 = ["text"; "examCategoryId"; "difficulty";
                                    "type"; "marks"; "timeLimit"; "options"]
                    /\ field o "text" = field q "text"
                    /\ field o "examCategoryId" = field q "examCategoryId"
                    /\ field o "type" = field q "type"
                    /\ truthy (field q "text") = true
                    /\ truthy (field q "examCategoryId") = true
                    /\ truthy (field q "type") = true
                    /\ field o "explanation" = JUndefined)
               items out).
Proof.
  split; [|split].
  - intros items Hparse Hall.
    destruct (map_indexed_all_ok validateQuestion items 0) as [out Hout].
    { intros i q Hq. rewrite Forall_lookup in Hall.
      destruct (Hall i q Hq) as [Hmiss Hopts].
      by apply validateQuestion_accepts. }
    exists out. split.
    + unfold handleBulkInsert, bulkInsertBody. rewrite Hparse. simpl.
      by rewrite Hout.
    + by destruct (QuestionsSpec.map_indexed_ok _ _ _ _ Hout).
  - intros Hparse. unfold handleBulkInsert, bulkInsertBody.
    by rewrite Hparse.
  - intros out Hsubmit.
    destruct (QuestionsSpec.bulk_insert_all_or_nothing JSON_parse bulkData)
      as [[msg Hmsg]|(items & out' & Hparse & Hmap & Hout)]; [congruence|].
    assert (out' = out) as -> by congruence.
    exists items. split; [done|].
    destruct (QuestionsSpec.map_indexed_ok _ _ _ _ Hmap) as [Hlen Hall].
    apply Forall2_same_length_lookup_2; [done|].
    intros i q o Hq Ho.
    destruct (QuestionsSpec.validate_ok _ _ _ (Hall i q o Hq Ho))
      as (Hmiss & options & _ & ->).
    eexists. split; [reflexivity|]. split; [reflexivity|].
    unfold missingField in Hmiss.
    apply orb_false_iff in Hmiss as [Hmiss Htype].
    apply orb_false_iff in Hmiss as [Htext Hcat].
    apply negb_false_iff in Htext, Hcat, Htype.
    by repeat split.
Qed.

(** An essay entry with an explanation is submitted, without the
    explanation; the empty array is submitted as it is. *)
Lemma bulk_insert_forwards_seven_fields_witness :
  (exists out : list jsval,
      handleBulkInsert (parsesTo (JArr [sampleEssayEntry])) ""
      = [BulkCreateQuestions out]
      /\ length out = 1%nat)
  /\ handleBulkInsert (parsesTo (JArr [])) "" = [BulkCreateQuestions []]
  /\ handleBulkInsert (parsesTo (JArr [sampleEssayEntry])) ""
     = [BulkCreateQuestions
          [JObj [("text", JStr "Why?"); ("examCategoryId", JStr "cat_001");
                 ("difficulty", JStr "EASY"); ("type", JStr "ESSAY");
                 ("marks", JNum 1); ("timeLimit", JNum 60);
                 ("options", JArr [])]]].
Proof.
  split; [|split; [|reflexivity]].
  - apply (proj1 (bulk_insert_forwards_seven_fields
                    (parsesTo (JArr [sampleEssayEntry])) "")
             [sampleEssayEntry] eq_refl).
    repeat constructor. discriminate.
  - apply (proj1 (proj2 (bulk_insert_forwards_seven_fields
                           (parsesTo (JArr [])) ""))).
    reflexivity.
Defined.

End QuestionFormSpec.
